(** * CORD-19 Explorer (app.py): the tiered data loader and its derived views

    A shallow embedding of the loading and data-preparation parts of
    [app.py]: [load_sample_data], [get_dataset_info] and the sidebar, the
    load-mode dispatch with the chunked Full-mode loop and its fallback, the
    [df is None] check, the [publish_time] preparation block, the year-range
    filter, the chart of the publications by year and the column information
    table.

    The script is a Streamlit program: it runs top to bottom against a file
    system it only reads, emits user-interface calls ([st.error],
    [progress_bar.progress], ...) and keeps its DataFrames as Python objects
    that several names may share.  The embedding is a state-and-exception
    monad over
    - the log of user-interface calls, oldest first,
    - the [st.cache_data] memo table of [load_sample_data],
    - a store of DataFrame objects and the global names [df] and [filtered]
      bound to references into it.

    pandas and Streamlit are libraries, not part of the repository; the
    functions of them that the script calls are modelled after their
    documented behaviour, each one in a definition of its own
    ([read_csv_nrows], [read_csv_chunks], [to_datetime_coerce], [dropna],
    [cache_data], [st_stop], [value_counts_sort_index], [memory_usage],
    [pd_DataFrame]). *)

From Stdlib Require Import ZArith QArith Qminmax Lia Sorted.
From stdpp Require Import base gmap strings list.
From stdpp Require Import sorting.

Local Open Scope Z_scope.

(** ** Data model *)

(** A pandas [Timestamp], as far as [.dt.year] looks at it. *)
Record Timestamp : Set := mkTimestamp { ts_year : Z; ts_month : Z; ts_day : Z }.

(** The typed scalars of a cell: string, number, date or null (NaN / NaT). *)
Inductive scalar : Set :=
| SStr (s : string)
| SNum (n : Z)
| SDate (t : Timestamp)
| SNull.

(** A DataFrame: the column labels in order, and the records in order, each
    record mapping a column label to a scalar. *)
Record DataFrame : Type := mkDataFrame {
  columns : list string;
  rows : list (gmap string scalar)
}.

(** [len(df)] *)
Definition len (d : DataFrame) : Z := Z.of_nat (length (rows d)).

(** Exceptions.  All but the last are subclasses of Python's [Exception];
    [StopException] is what [st.stop()] raises, and Streamlit derives it from
    [BaseException] so that [except Exception] in a script does not catch it. *)
Inductive exc : Set :=
| FileNotFoundError
| IsADirectoryError
| EmptyDataError
| ParserError
| ValueError
| NameError
| AttributeError
| StreamlitAPIException
| StopException.

Definition is_Exception (e : exc) : bool :=
  match e with
  | StopException => false
  | _ => true
  end.

Inductive result (A : Type) : Type :=
| Ok (a : A)
| Raise (e : exc).
Arguments Ok {A} a.
Arguments Raise {A} e.

(** What a path of the file system holds.  A CSV file is its header and its
    data lines, each line the list of its fields. *)
Inductive fnode : Type :=
| Absent
| Directory
| EmptyFile
| Csv (header : list string) (body : list (list scalar)).

(** Texts shown to the user; the two f-strings keep the exception they
    interpolate. *)
Inductive message : Type :=
| ErrorLoadingDataset (e : exc)      (* f"Error loading dataset: {e}" *)
| ErrorLoadingFullDataset (e : exc)  (* f"Error loading full dataset: {e}" *)
| Text (s : string).

(** The Streamlit calls of the modelled part of the script. *)
Inductive ui_event : Type :=
| st_error (m : message)
| st_info (m : message)
| st_warning (m : message)
| st_progress (v : Q)              (* progress_bar = st.progress(v) *)
| st_empty                         (* status_text = st.empty() *)
| progress_bar_progress (v : Q)    (* progress_bar.progress(v) *)
| status_text_text (total_rows : Z) (* status_text.text(f"Loaded {total_rows:,} rows...") *)
| progress_bar_empty               (* progress_bar.empty() *)
| status_text_empty.               (* status_text.empty() *)

(** A Python value of the names [df] and [filtered]: not bound yet, [None],
    or a reference to a DataFrame object of the store. *)
Inductive pyval : Set :=
| Unbound
| PyNone
| PyRef (l : nat).

(** An entry of the [st.cache_data] table: the pickled return value and the
    element calls recorded while the function ran, replayed on a hit. *)
Abbreviation cached := (option DataFrame * list ui_event)%type.

Record State : Type := mkState {
  st_ui : list ui_event;
  st_cache : gmap Z cached;
  st_heap : list DataFrame;
  g_df : pyval;
  g_filtered : pyval
}.

(** ** The monad of the script *)

Definition M (A : Type) : Type := State → result A * State.

#[global] Instance M_ret : MRet M := λ A a s, (Ok a, s).
#[global] Instance M_bind : MBind M := λ A B f m s,
  match m s with
  | (Ok a, s') => f a s'
  | (Raise e, s') => (Raise e, s')
  end.

Definition raise {A} (e : exc) : M A := λ s, (Raise e, s).

(** A pure computation that may raise, run inside the script. *)
Definition lift {A} (r : result A) : M A := λ s, (r, s).

(** [try: body except Exception as e: handler e] *)
Definition try_except {A} (body : M A) (handler : exc → M A) : M A := λ s,
  match body s with
  | (Ok a, s') => (Ok a, s')
  | (Raise e, s') => if is_Exception e then handler e s' else (Raise e, s')
  end.

(** The state after further element calls were shown. *)
Definition shown (s : State) (out : list ui_event) : State :=
  mkState (st_ui s ++ out) (st_cache s) (st_heap s) (g_df s) (g_filtered s).

Definition emit (e : ui_event) : M unit := λ s, (Ok tt, shown s [e]).

Definition get_df : M pyval := λ s, (Ok (g_df s), s).

(** [df = v] *)
Definition set_df (v : pyval) : M unit := λ s,
  (Ok tt, mkState (st_ui s) (st_cache s) (st_heap s) v (g_filtered s)).

(** [filtered = v] *)
Definition set_filtered (v : pyval) : M unit := λ s,
  (Ok tt, mkState (st_ui s) (st_cache s) (st_heap s) (g_df s) v).

(** A new DataFrame object. *)
Definition alloc (d : DataFrame) : M nat := λ s,
  (Ok (length (st_heap s)),
   mkState (st_ui s) (st_cache s) (st_heap s ++ [d]) (g_df s) (g_filtered s)).

(** The object behind a reference, changed in place. *)
Definition modify (l : nat) (f : DataFrame → DataFrame) : M unit := λ s,
  (Ok tt,
   mkState (st_ui s) (st_cache s)
     (match st_heap s !! l with
      | Some d => <[l := f d]> (st_heap s)
      | None => st_heap s
      end)
     (g_df s) (g_filtered s)).

(** The DataFrame a value denotes in a state, if any. *)
Definition deref (s : State) (v : pyval) : option DataFrame :=
  match v with
  | PyRef l => st_heap s !! l
  | _ => None
  end.

(** [st.stop()] *)
Definition st_stop {A} : M A := raise StopException.

(** The state a run of the script starts in: nothing shown, no object, no
    name bound; only the memo table survives from earlier runs. *)
Definition init_state (c : gmap Z cached) : State :=
  mkState [] c [] Unbound Unbound.

(** ** pandas: reading a CSV file *)

(** The record of a data line: its fields under the header's labels, a short
    line padded with nulls. *)
Definition mk_row (header : list string) (fields : list scalar) : gmap string scalar :=
  list_to_map (zip header (fields ++ replicate (length header - length fields)%nat SNull)).

(** The index fields of a file.  pandas looks at the first data line when
    it opens the file: the fields that line has beyond the header are taken
    as the row index, in that line and in every other, so the first data
    line is never too long.  [pd.concat(..., ignore_index=True)] and the
    frames of this model keep no index: the index fields are dropped. *)
Definition index_fields (header : list string) (body : list (list scalar)) : nat :=
  (length (hd [] body) - length header)%nat.

(** The data lines of a file without their index fields. *)
Definition data_lines (header : list string) (body : list (list scalar))
  : list (list scalar) :=
  drop (index_fields header body) <$> body.

(** A line that, its index fields apart, has more fields than the header is
    a tokenizing error. *)
Definition well_formed (header : list string) (line : list scalar) : bool :=
  bool_decide (length line ≤ length header)%nat.

Definition parse_rows (header : list string) (lines : list (list scalar))
  : result (list (gmap string scalar)) :=
  if forallb (well_formed header) lines
  then Ok (mk_row header <$> lines)
  else Raise ParserError.

(** What the iterator of [pd.read_csv(..., chunksize=...)] hands out at a
    step: the next chunk, or an exception raised while reading it. *)
Inductive chunk_event : Type :=
| Chunk (chunk : DataFrame)
| Fault (e : exc).

(** The chunks of a body: [c] lines at a time until no line is left, or
    until a read meets a malformed line.  [fuel] bounds the number of reads;
    one per line is enough. *)
Fixpoint iter_chunks (fuel : nat) (header : list string) (c : nat)
    (lines : list (list scalar)) : list chunk_event :=
  match fuel with
  | O => []
  | S fuel' =>
      match lines with
      | [] => []
      | _ :: _ =>
          match parse_rows header (take c lines) with
          | Raise e => [Fault e]
          | Ok rs => Chunk (mkDataFrame header rs) :: iter_chunks fuel' header c (drop c lines)
          end
      end
  end.

(** [pd.concat(chunks, ignore_index=True)]; the chunks of one file share
    their columns. *)
Definition pd_concat (chunks : list DataFrame) : result DataFrame :=
  match chunks with
  | [] => Raise ValueError
  | d :: _ => Ok (mkDataFrame (columns d) (concat (rows <$> chunks)))
  end.

Section Loader.

(** The file system the script runs against. *)
Variable fs : string → fnode.

(** [pd.read_csv(path, nrows=nrows, low_memory=False)]: the first [nrows]
    data lines, and only they are looked at (the first one also for the
    index fields). *)
Definition read_csv_nrows (path : string) (nrows : Z) : result DataFrame :=
  if nrows <? 0 then Raise ValueError
  else match fs path with
       | Absent => Raise FileNotFoundError
       | Directory => Raise IsADirectoryError
       | EmptyFile => Raise EmptyDataError
       | Csv header body =>
           match parse_rows header (take (Z.to_nat nrows) (data_lines header body)) with
           | Ok rs => Ok (mkDataFrame header rs)
           | Raise e => Raise e
           end
       end.

(** [pd.read_csv(path, chunksize=chunksize, low_memory=False)]: opening
    the file may raise; the iterator then yields the chunks.  The first
    read of a file that has a header and no data line yields one chunk
    with no row. *)
Definition read_csv_chunks (path : string) (chunksize : Z) : result (list chunk_event) :=
  if chunksize <? 1 then Raise ValueError
  else match fs path with
       | Absent => Raise FileNotFoundError
       | Directory => Raise IsADirectoryError
       | EmptyFile => Raise EmptyDataError
       | Csv header body =>
           Ok (match body with
               | [] => [Chunk (mkDataFrame header [])]
               | _ :: _ =>
                   iter_chunks (length body) header (Z.to_nat chunksize)
                     (data_lines header body)
               end)
       end.

(** ** [load_sample_data] *)

(** The body of the function: the frame that [pd.read_csv] returns is not
    bound to a name, and [return df] looks the global [df] up. *)
Definition load_sample_data_body (nrows : Z) : M pyval :=
  try_except
    (_ ← lift (read_csv_nrows "metadata.csv" nrows);
     v ← get_df;
     match v with
     | Unbound => raise NameError
     | _ => mret v
     end)
    (λ e, emit (st_error (ErrorLoadingDataset e));; mret PyNone).

Definition get_state : M State := λ s, (Ok s, s).

Definition cache_store (key : Z) (entry : cached) : M unit := λ s,
  (Ok tt, mkState (st_ui s) (<[key := entry]> (st_cache s)) (st_heap s) (g_df s) (g_filtered s)).

Fixpoint replay (shown : list ui_event) : M unit :=
  match shown with
  | [] => mret tt
  | e :: shown' => emit e;; replay shown'
  end.

(** [@st.cache_data]: on a hit the recorded elements are replayed and a
    copy of the cached value is returned; on a miss the function runs and
    its value and elements are recorded. *)
Definition cache_data (f : Z → M pyval) (nrows : Z) : M pyval :=
  s ← get_state;
  match st_cache s !! nrows with
  | Some (Some d, shown) => replay shown;; l ← alloc d; mret (PyRef l)
  | Some (None, shown) => replay shown;; mret PyNone
  | None =>
      v ← f nrows;
      s' ← get_state;
      cache_store nrows (deref s' v, drop (length (st_ui s)) (st_ui s'));;
      mret v
  end.

Definition load_sample_data (nrows : Z) : M pyval :=
  cache_data load_sample_data_body nrows.

(** ** Full mode *)

Definition chunk_size : Z := 50000.

(** [min(total_rows / 1000000, 1.0)], as the exact rational the float
    stands for. *)
Definition progress_value (total_rows : Z) : Q :=
  Qmin (total_rows # 1000000) 1.

(** The [for chunk in ...] loop over what the iterator yields. *)
Fixpoint chunk_loop (it : list chunk_event) (chunks : list DataFrame) (total_rows : Z)
  : M (list DataFrame * Z) :=
  match it with
  | [] => mret (chunks, total_rows)
  | Fault e :: _ => raise e
  | Chunk chunk :: it' =>
      let chunks := chunks ++ [chunk] in
      let total_rows := total_rows + len chunk in
      emit (progress_bar_progress (progress_value total_rows));;
      emit (status_text_text total_rows);;
      if 500000 <=? total_rows
      then emit (st_warning (Text "Limited to 500,000 rows to prevent memory issues"));;
           mret (chunks, total_rows)
      else chunk_loop it' chunks total_rows
  end.

(** The [try] block of the Full branch, given what
    [pd.read_csv(..., chunksize=chunk_size)] turns out to be. *)
Definition full_mode_try (reader : result (list chunk_event)) : M unit :=
  emit (st_progress 0);;
  emit st_empty;;
  it ← lift reader;
  '(chunks, total_rows) ← chunk_loop it [] 0;
  match chunks with
  | _ :: _ =>
      d ← lift (pd_concat chunks);
      l ← alloc d;
      set_df (PyRef l);;
      emit progress_bar_empty;;
      emit status_text_empty
  | [] =>
      emit (st_error (Text "No data loaded"));;
      st_stop
  end.

(** The [except Exception as e] handler of the Full branch. *)
Definition fallback (e : exc) : M unit :=
  emit (st_error (ErrorLoadingFullDataset e));;
  emit (st_info (Text "Falling back to sample data..."));;
  v ← load_sample_data 10000;
  set_df v.

(** The Full branch. *)
Definition full_mode (reader : result (list chunk_event)) : M unit :=
  try_except (full_mode_try reader) fallback.

(** The dispatch on the value of the selectbox. *)
Definition load_section (load_mode : string) : M unit :=
  if decide (load_mode = "Sample (10K rows) - Fast") then
    v ← load_sample_data 10000; set_df v
  else if decide (load_mode = "Sample (50K rows) - Medium") then
    v ← load_sample_data 50000; set_df v
  else
    full_mode (read_csv_chunks "metadata.csv/metadata.csv" chunk_size).

(** [if df is None: st.error(...); st.stop()] *)
Definition check_loaded : M unit :=
  v ← get_df;
  match v with
  | Unbound => raise NameError
  | PyNone => emit (st_error (Text "Failed to load dataset"));; st_stop
  | PyRef _ => mret tt
  end.

(** The loader as the rest of the script sees it. *)
Definition load (load_mode : string) : M unit :=
  load_section load_mode;; check_loaded.

End Loader.

(** ** pandas: columns, dates and row selection *)

(** [df[c]] at a record; a label the record lacks reads as null. *)
Definition cell (c : string) (r : gmap string scalar) : scalar :=
  default SNull (r !! c).

Definition isna (v : scalar) : bool :=
  match v with
  | SNull => true
  | _ => false
  end.

(** [df[c] = values], on the frame itself: the column is overwritten, or
    appended when the frame has no such label. *)
Definition setitem (c : string) (value : gmap string scalar → scalar) (d : DataFrame)
  : DataFrame :=
  mkDataFrame
    (if bool_decide (c ∈ columns d) then columns d else columns d ++ [c])
    ((λ r, <[c := value r]> r) <$> rows d).

(** [df[mask]]: a new frame of the records the mask keeps. *)
Definition select (keep : gmap string scalar → bool) (d : DataFrame) : DataFrame :=
  mkDataFrame (columns d) (filter (λ r, keep r) (rows d)).

(** [df.dropna(subset=[c])] *)
Definition dropna (c : string) (d : DataFrame) : DataFrame :=
  select (λ r, negb (isna (cell c r))) d.

(** [.dt.year] *)
Definition dt_year (v : scalar) : scalar :=
  match v with
  | SDate t => SNum (ts_year t)
  | _ => SNull
  end.

(** [df[c].isna().all()] *)
Definition all_isna (c : string) (d : DataFrame) : bool :=
  forallb (λ r, isna (cell c r)) (rows d).

(** The numbers of a column, nulls skipped as [min()] and [max()] do. *)
Definition numbers (c : string) (d : DataFrame) : list Z :=
  omap (λ r, match cell c r with SNum y => Some y | _ => None end) (rows d).

Definition between (c : string) (lo hi : Z) (r : gmap string scalar) : bool :=
  match cell c r with
  | SNum y => (lo <=? y) && (y <=? hi)
  | _ => false
  end.

Section Views.

(** pandas' reading of a string and of a number as a date; [None] where
    it cannot. *)
Variable parse_datetime : string → option Timestamp.
Variable epoch_datetime : Z → option Timestamp.

(** [st.slider(label, min_value, max_value, value)]: the range the user
    selects, or the exception of a rejected call. *)
Variable st_slider : Z → Z → Z * Z → result (Z * Z).

(** [pd.to_datetime(..., errors="coerce")] at a cell. *)
Definition to_datetime_coerce (v : scalar) : scalar :=
  match v with
  | SStr s => from_option SDate SNull (parse_datetime s)
  | SNum n => from_option SDate SNull (epoch_datetime n)
  | SDate t => SDate t
  | SNull => SNull
  end.

(** The frame a name is bound to; an attribute of [None] is an
    [AttributeError]. *)
Definition frame_of (v : pyval) : M DataFrame := λ s,
  match v with
  | Unbound => (Raise NameError, s)
  | _ => match deref s v with
         | Some d => (Ok d, s)
         | None => (Raise AttributeError, s)
         end
  end.

(** [df[c] = values] through the name [df]. *)
Definition df_setitem (c : string) (value : gmap string scalar → scalar) : M unit :=
  v ← get_df;
  _ ← frame_of v;
  match v with
  | PyRef l => modify l (setitem c value)
  | _ => mret tt
  end.

(** The data preparation block. *)
Definition prepare : M unit :=
  v ← get_df;
  d ← frame_of v;
  if bool_decide ("publish_time" ∈ columns d) then
    df_setitem "publish_time" (λ r, to_datetime_coerce (cell "publish_time" r));;
    v ← get_df;
    d ← frame_of v;
    l ← alloc (dropna "publish_time" d);
    set_df (PyRef l);;
    df_setitem "year" (λ r, dt_year (cell "publish_time" r))
  else
    emit (st_warning (Text "'publish_time' column not found. Using available data."));;
    df_setitem "year" (λ _, SNum 2020).

(** The year-range filter. *)
Definition year_filter : M unit :=
  v ← get_df;
  d ← frame_of v;
  if bool_decide ("year" ∈ columns d) && negb (all_isna "year" d) then
    let years := numbers "year" d in
    let min_year := foldr Z.min (hd 0 years) years in
    let max_year := foldr Z.max (hd 0 years) years in
    year_range ← lift (st_slider min_year max_year (2020, 2021));
    l ← alloc (select (between "year" year_range.1 year_range.2) d);
    set_filtered (PyRef l)
  else
    set_filtered v;;
    emit (st_info (Text "No year data available for filtering")).

End Views.

(** The modelled part of the script, in the order it runs. *)
Definition script (fs : string → fnode)
    (parse_datetime : string → option Timestamp) (epoch_datetime : Z → option Timestamp)
    (st_slider : Z → Z → Z * Z → result (Z * Z)) (load_mode : string) : M unit :=
  load fs load_mode;;
  prepare parse_datetime epoch_datetime;;
  year_filter st_slider.

(** ** [get_dataset_info] and the sidebar *)

Section DatasetInfo.

Variable fs : string → fnode.

(** [os.path.getsize(path)]: the size in bytes, [None] where it raises
    [OSError]. *)
Variable getsize : string → option Z.

(** The body of the function: the size in GB and the column labels, read
    with [nrows=0]; [None] stands for the pair [(None, None)] of the handler. *)
Definition get_dataset_info_body : result (option (Q * list string)) :=
  let file_path := "metadata.csv/metadata.csv" in
  match
    match getsize file_path with
    | None => Raise FileNotFoundError
    | Some bytes =>
        let file_size := (bytes # 1073741824)%Q in
        match read_csv_nrows fs file_path 0 with
        | Ok df_sample => Ok (Some (file_size, columns df_sample))
        | Raise e => Raise e
        end
    end
  with
  | Ok info => Ok info
  | Raise e => if is_Exception e then Ok None else Raise e
  end.

(** [@st.cache_data] on a function without arguments: one memo cell. *)
Definition get_dataset_info (memo : option (option (Q * list string)))
  : result (option (Q * list string) * option (option (Q * list string))) :=
  match memo with
  | Some info => Ok (info, memo)
  | None =>
      match get_dataset_info_body with
      | Ok info => Ok (info, Some info)
      | Raise e => Raise e
      end
  end.

End DatasetInfo.

(** The two [st.sidebar.info] calls. *)
Inductive sidebar_event : Type :=
| sidebar_dataset_size (file_size : Q)   (* f"Dataset size: {file_size:.2f} GB" *)
| sidebar_columns (n : Z).               (* f"Columns: {len(columns)}" *)

(** [if file_size: ...] on what [get_dataset_info] returned. *)
Definition sidebar (info : option (Q * list string)) : list sidebar_event :=
  match info with
  | Some (file_size, columns) =>
      if Qeq_bool file_size 0 then []
      else [sidebar_dataset_size file_size; sidebar_columns (Z.of_nat (length columns))]
  | None => []
  end.

(** ** The charts *)

#[global] Instance Timestamp_eq_dec : EqDecision Timestamp.
Proof. solve_decision. Defined.

#[global] Instance scalar_eq_dec : EqDecision scalar.
Proof. solve_decision. Defined.

(** [df[c].value_counts().sort_index()]: the distinct numbers of the
    column in ascending order, nulls left out, each with the number of rows
    that hold it. *)
Definition value_counts_sort_index (c : string) (d : DataFrame) : list (Z * Z) :=
  let values := numbers c d in
  (λ y, (y, Z.of_nat (length (filter (λ y', y' = y) values))))
    <$> merge_sort Z.le (remove_dups values).

Inductive chart : Type :=
  | st_bar_chart (bars : list (Z * Z))
  | chart_info (m : message).

Definition get_filtered : M pyval := λ s, (Ok (g_filtered s), s).

(** The "Publications by Year" chart. *)
Definition publications_by_year : M chart :=
  v ← get_filtered;
  filtered ← frame_of v;
  if bool_decide ("year" ∈ columns filtered) && negb (all_isna "year" filtered) then
    let year_counts := value_counts_sort_index "year" filtered in
    mret (st_bar_chart year_counts)
  else
    mret (chart_info (Text "No year data available for chart")).

(** ** The column information table *)

(** A value of a list of [col_info_data]. *)
Inductive info_value : Type :=
  | VStr (s : string)
  | VInt (n : Z)
  | VFloat (q : Q).

(** What the expander shows: the table, or the numbered columns of the
    handler. *)
Inductive column_view : Type :=
  | st_dataframe (col_info : list (string * list info_value))
  | available_columns (e : exc) (lines : list (Z * string * string)).

(** [pd.DataFrame(data)] of a dict of lists: arrays of unequal length
    are a [ValueError]. *)
Definition pd_DataFrame (data : list (string * list info_value))
  : result (list (string * list info_value)) :=
  match data with
  | [] => Ok []
  | (_, values) :: rest =>
      if forallb (λ item, Nat.eqb (length item.2) (length values)) rest then Ok data
      else Raise ValueError
  end.

Section ColumnInformation.

(** [str(df[c].dtype)], and the bytes [memory_usage(deep=True)] counts for
    the index and for a column. *)
Variable dtype_name : DataFrame → string → string.
Variable index_memory : DataFrame → Z.
Variable column_memory : DataFrame → string → Z.

(** [df.count()] *)
Definition df_count (d : DataFrame) : list Z :=
  (λ c, Z.of_nat (length (filter (λ row, negb (isna (cell c row))) (rows d)))) <$> columns d.

(** [df.isnull().sum()] *)
Definition isnull_sum (d : DataFrame) : list Z :=
  (λ c, Z.of_nat (length (filter (λ row, isna (cell c row)) (rows d)))) <$> columns d.

(** [df.memory_usage(deep=True)]: the index first, then the columns. *)
Definition memory_usage (d : DataFrame) : list Z :=
  index_memory d :: (column_memory d <$> columns d).

Definition col_info_data (d : DataFrame) : list (string * list info_value) :=
  [("Column", VStr <$> columns d);
   ("Data Type", (λ c, VStr (dtype_name d c)) <$> columns d);
   ("Non-Null Count", VInt <$> df_count d);
   ("Null Count", VInt <$> isnull_sum d);
   ("Memory Usage (KB)", (λ bytes, VFloat (bytes # 1024)) <$> memory_usage d)].

(** The body of the loop that brings every list to [max_len] values. *)
Definition same_length (max_len : nat) (values : list info_value) : list info_value :=
  if decide (length values ≠ max_len) then
    if decide (max_len < length values)%nat then take max_len values
    else values ++ replicate (max_len - length values) (VInt 0)
  else values.

Definition column_information (d : DataFrame) : result column_view :=
  let max_len := length (columns d) in
  match pd_DataFrame ((λ item, (item.1, same_length max_len item.2)) <$> col_info_data d) with
  | Ok col_info => Ok (st_dataframe col_info)
  | Raise e =>
      if is_Exception e then
        Ok (available_columns e
              (imap (λ i c, (Z.of_nat i + 1, c, dtype_name d c)) (columns d)))
      else Raise e
  end.

End ColumnInformation.

(** ** What is observed of a run *)

(** The values passed to [progress_bar.progress], in the order shown. *)
Definition progress_values (ui : list ui_event) : list Q :=
  omap (λ e, match e with progress_bar_progress v => Some v | _ => None end) ui.

(** The warning of the 500,000-row limit: the script's only sign of
    truncation. *)
Definition limit_warning : ui_event :=
  st_warning (Text "Limited to 500,000 rows to prevent memory issues").

Definition full : string := "Full dataset - Slow".
Definition sample_small : string := "Sample (10K rows) - Fast".
Definition sample_medium : string := "Sample (50K rows) - Medium".

Definition source : string := "metadata.csv/metadata.csv".

(** The exception that [load_sample_data] reports when [df] is not bound:
    the one of the read, or else the [NameError] of [return df]. *)
Definition sample_error (fs : string → fnode) (nrows : Z) : exc :=
  match read_csv_nrows fs "metadata.csv" nrows with
  | Raise e => e
  | Ok _ => NameError
  end.

(** A memo table whose entries were all recorded by [load_sample_data]
    running on this file system with [df] not bound, which is how every run
    of the script calls it. *)
Definition cache_consistent (fs : string → fnode) (c : gmap Z cached) : Prop :=
  ∀ nrows entry, c !! nrows = Some entry →
    ∃ s0 v s1,
      g_df s0 = Unbound ∧
      load_sample_data_body fs nrows s0 = (Ok v, s1) ∧
      entry = (deref s1 v, drop (length (st_ui s0)) (st_ui s1)).

(** A well-formed CSV body: no line has more fields than the header. *)
Definition well_formed_body (header : list string) (body : list (list scalar)) : Prop :=
  Forall (λ line, length line ≤ length header)%nat body.

(** The rows of a list of chunks, counted. *)
Definition total_len (chunks : list DataFrame) : Z :=
  Z.of_nat (length (concat (rows <$> chunks))).

(** A reader all of whose exceptions are subclasses of [Exception]. *)
Definition raises_Exceptions (reader : result (list chunk_event)) : Prop :=
  match reader with
  | Raise e => is_Exception e = true
  | Ok it => ∀ e, Fault e ∈ it → is_Exception e = true
  end.

(** [df] names a frame with a [year] column holding a number in every row. *)
Definition years_known (d : DataFrame) : Prop :=
  "year" ∈ columns d ∧ ∀ row, row ∈ rows d → ∃ y, cell "year" row = SNum y.

Definition no_year_data : ui_event :=
  st_info (Text "No year data available for filtering").

(** The sum of the counts of a chart. *)
Definition bar_total (bars : list (Z * Z)) : Z := foldr Z.add 0 (bars.*2).

(** The rows of a frame with a given year. *)
Definition rows_of_year (y : Z) (d : DataFrame) : list (gmap string scalar) :=
  filter (λ row, cell "year" row = SNum y) (rows d).

(** The source with its data lines replaced. *)
Definition with_body (fs : string → fnode) (header : list string)
    (body : list (list scalar)) : string → fnode :=
  λ path, if decide (path = source) then Csv header body else fs path.

(** ** Example inputs *)

(** A file system with the two paths the script reads; [metadata.csv] is a
    directory whenever [metadata.csv/metadata.csv] is a file. *)
Definition file_system (at_metadata_csv at_source : fnode) : string → fnode :=
  λ path, if decide (path = "metadata.csv") then at_metadata_csv
          else if decide (path = source) then at_source
          else Absent.

(** A body of [n] one-field lines. *)
Definition titles (n : Z) : list (list scalar) := replicate (Z.to_nat n) [SStr "a title"].

(** Three lines, the last one short of its date. *)
Definition three_rows : fnode :=
  Csv ["title"; "publish_time"]
    [[SStr "A"; SStr "2020-03-01"]; [SStr "B"; SStr "2021-07-15"]; [SStr "C"]].

(** 10,000 good lines, then a line with one field too many. *)
Definition late_fault : fnode :=
  Csv ["title"] (titles 10000 ++ [[SStr "a title"; SStr "a stray field"]]).

(** A header and no data line. *)
Definition header_only : fnode := Csv ["title"; "publish_time"] [].

(** A first data line with one field more than the header. *)
Definition indexed : fnode := Csv ["title"] [[SStr "A"; SStr "B"]; [SStr "C"]].

(** A date parser that knows the two dates of the examples. *)
Definition example_parse (s : string) : option Timestamp :=
  if decide (s = "2020-03-01") then Some (mkTimestamp 2020 3 1)
  else if decide (s = "2021-07-15") then Some (mkTimestamp 2021 7 15)
  else None.

Definition no_epoch (n : Z) : option Timestamp := None.

(** A slider left at its default value. *)
Definition default_range (min_year max_year : Z) (value : Z * Z) : result (Z * Z) :=
  Ok value.

Definition dated : fnode :=
  Csv ["title"; "publish_time"]
    [[SStr "A"; SStr "2020-03-01"]; [SStr "B"; SStr "not a date"]; [SStr "C"; SStr "2021-07-15"]].

Definition undated : fnode :=
  Csv ["title"; "journal"] [[SStr "A"; SStr "J1"]; [SStr "B"; SStr "J2"]].

(** [df[c]] as the list of its values. *)
Definition column (c : string) (d : DataFrame) : list scalar := cell c <$> rows d.

(** The frame of all the lines of a CSV file. *)
Definition all_rows (node : fnode) : DataFrame :=
  match node with
  | Csv header body => mkDataFrame header (mk_row header <$> body)
  | _ => mkDataFrame [] []
  end.

(** The state after a Full load of a source, from an empty memo table. *)
Definition loaded_from (source_node : fnode) : State :=
  (load (file_system Directory source_node) full (init_state ∅)).2.

Definition small_fs : string → fnode := file_system Directory three_rows.

(** [os.path.getsize] on a source of 2 GiB. *)
Definition example_getsize (path : string) : option Z :=
  if decide (path = source) then Some 2147483648 else None.

(** The dated source after the preparation block: the frame [df] names. *)
Definition dated_years : DataFrame :=
  setitem "year" (λ r, dt_year (cell "publish_time" r))
    (dropna "publish_time"
       (setitem "publish_time"
          (λ r, to_datetime_coerce example_parse no_epoch (cell "publish_time" r))
          (all_rows dated))).

(** The state after the load of the dated source and the preparation block. *)
Definition prepared_dated : State := (prepare example_parse no_epoch (loaded_from dated)).2.

(** A slider moved to the single year 2021. *)
Definition only_2021 (min_year max_year : Z) (value : Z * Z) : result (Z * Z) :=
  Ok (2021, 2021).

Definition example_dtype (d : DataFrame) (c : string) : string := "object".
Definition example_index_memory (d : DataFrame) : Z := 128.
Definition example_column_memory (d : DataFrame) (c : string) : Z :=
  8 * len d + Z.of_nat (String.length c).

(** The state of the dated source after the filter at its default range. *)
Definition filtered_dated : State := (year_filter default_range prepared_dated).2.

(** * Facts *)

(** ** Basic facts *)

Lemma data_lines_length header body : length (data_lines header body) = length body.
Proof. unfold data_lines. by rewrite length_fmap. Qed.

Lemma data_lines_fits header body :
  (length (hd [] body) ≤ length header)%nat → data_lines header body = body.
Proof.
  intros H. unfold data_lines, index_fields.
  replace (length (hd [] body) - length header)%nat with 0%nat by lia.
  clear H. induction body as [|line body IH]; [done|].
  rewrite fmap_cons, drop_0. by f_equal.
Qed.

(** A source none of whose lines is longer than the header has no index
    fields. *)
Lemma data_lines_well_formed header body :
  well_formed_body header body → data_lines header body = body.
Proof.
  intros Hwf. apply data_lines_fits. destruct Hwf; [cbn; lia|done].
Qed.

Lemma take_data_lines_well_formed n header body :
  well_formed_body header (take n body) →
  take n (data_lines header body) = take n body.
Proof.
  destruct n as [|n]; [done|]. intros Hwf. rewrite data_lines_fits; [done|].
  destruct body as [|line body]; [cbn; lia|].
  cbn [take] in Hwf. by apply Forall_cons in Hwf as [? _].
Qed.

(** The lines a read of [n] lines looks at are the first [n]. *)
Lemma take_data_lines_eq n header body body' :
  (0 < n)%nat → take n body = take n body' →
  take n (data_lines header body) = take n (data_lines header body').
Proof.
  intros Hn Htake. unfold data_lines.
  assert (hd [] body = hd [] body') as Hhd.
  { destruct n as [|n]; [lia|]. by destruct body, body'; simplify_eq/=. }
  unfold index_fields. rewrite Hhd, <- !fmap_take. by rewrite Htake.
Qed.

Lemma shown_nil s : shown s [] = s.
Proof. destruct s; unfold shown; simpl. by rewrite app_nil_r. Qed.

Lemma shown_app s a b : shown (shown s a) b = shown s (a ++ b).
Proof. unfold shown; simpl. by rewrite <- app_assoc. Qed.

Lemma progress_values_app a b :
  progress_values (a ++ b) = progress_values a ++ progress_values b.
Proof. apply omap_app. Qed.

Lemma progress_value_mono a b : a ≤ b → (progress_value a <= progress_value b)%Q.
Proof.
  intros Hab. unfold progress_value.
  apply Q.min_le_compat_r. unfold Qle; simpl. lia.
Qed.

Lemma progress_value_below_cap t :
  0 ≤ t ≤ 1000000 → (progress_value t == t # 1000000)%Q.
Proof.
  intros Ht. unfold progress_value. apply Q.min_l.
  unfold Qle; simpl. lia.
Qed.

Lemma len_nonneg d : 0 ≤ len d.
Proof. unfold len. lia. Qed.

(** ** The chunk loop *)

Lemma chunk_loop_step chunk it chunks total s :
  chunk_loop (Chunk chunk :: it) chunks total s =
  let total' := total + len chunk in
  let s' := shown s [progress_bar_progress (progress_value total'); status_text_text total'] in
  if 500000 <=? total'
  then (Ok (chunks ++ [chunk], total'), shown s' [limit_warning])
  else chunk_loop it (chunks ++ [chunk]) total' s'.
Proof.
  cbn [chunk_loop]. unfold mbind, M_bind, emit. rewrite !shown_app. cbn [app].
  destruct (500000 <=? total + len chunk).
  - unfold mret, M_ret. rewrite shown_app. reflexivity.
  - reflexivity.
Qed.

Lemma total_len_app a b : total_len (a ++ b) = total_len a + total_len b.
Proof.
  unfold total_len. rewrite fmap_app, concat_app, length_app. lia.
Qed.

Lemma total_len_singleton d : total_len [d] = len d.
Proof. unfold total_len, len. cbn. rewrite app_nil_r. reflexivity. Qed.

Lemma chunk_loop_frame it : ∀ chunks total s,
  ∃ out, (chunk_loop it chunks total s).2 = shown s out ∧
    Sorted Qle (progress_value total :: progress_values out) ∧
    ∀ chunks' total', (chunk_loop it chunks total s).1 = Ok (chunks', total') →
      last (progress_value total :: progress_values out) = Some (progress_value total') ∧
      ∃ new, chunks' = chunks ++ new ∧ total' = total + total_len new.
Proof.
  induction it as [|[chunk|e] it IH]; intros chunks total s.
  - exists []. cbn. rewrite shown_nil. split; [done|]. split; [repeat constructor|].
    intros ? ? [= <- <-]. split; [done|]. exists []. rewrite app_nil_r.
    unfold total_len; cbn. split; [done|lia].
  - rewrite chunk_loop_step. cbn zeta.
    pose proof (len_nonneg chunk) as Hlen.
    destruct (500000 <=? total + len chunk).
    + eexists. cbn [snd fst]. rewrite shown_app. split; [reflexivity|].
      cbn. split.
      * repeat constructor. apply progress_value_mono. lia.
      * intros ? ? [= <- <-]. split; [done|]. exists [chunk].
        by rewrite total_len_singleton.
    + destruct (IH (chunks ++ [chunk]) (total + len chunk)
                  (shown s [progress_bar_progress (progress_value (total + len chunk));
                            status_text_text (total + len chunk)]))
        as (out & Hs & Hsorted & Hres).
      eexists. rewrite Hs, shown_app. split; [reflexivity|].
      cbn [app progress_values omap list_omap]. fold (progress_values out). split.
      * constructor; [done|]. constructor. apply progress_value_mono. lia.
      * intros chunks' total' Heq. destruct (Hres _ _ Heq) as (Hlast & new & -> & ->).
        split; [exact Hlast|]. exists (chunk :: new).
        rewrite <- app_assoc. split; [done|].
        change (chunk :: new) with ([chunk] ++ new).
        rewrite total_len_app, total_len_singleton. lia.
  - exists []. cbn. rewrite shown_nil. split; [done|]. split; [repeat constructor|].
    intros ? ? [=].
Qed.

Lemma parse_rows_Ok h ls rs : parse_rows h ls = Ok rs → rs = mk_row h <$> ls.
Proof. unfold parse_rows. destruct (forallb _ _); congruence. Qed.

Lemma parse_rows_Raise h ls e : parse_rows h ls = Raise e → e = ParserError.
Proof. unfold parse_rows. destruct (forallb _ _); congruence. Qed.

Lemma parse_rows_well_formed h ls :
  well_formed_body h ls → parse_rows h ls = Ok (mk_row h <$> ls).
Proof.
  intros Hwf. unfold parse_rows.
  replace (forallb (well_formed h) ls) with true; [done|].
  symmetry. apply forallb_forall. intros l Hl.
  unfold well_formed. apply bool_decide_eq_true.
  unfold well_formed_body in Hwf. rewrite Forall_forall in Hwf.
  apply Hwf. by apply list_elem_of_In.
Qed.

Lemma well_formed_take h n ls : well_formed_body h ls → well_formed_body h (take n ls).
Proof. apply Forall_take. Qed.

Lemma well_formed_drop h n ls : well_formed_body h ls → well_formed_body h (drop n ls).
Proof. apply Forall_drop. Qed.

Section ChunkLoop.

Variable header : list string.
Variable c : nat.
Hypothesis c_chunk_size : Z.of_nat c = chunk_size.

Lemma chunk_loop_cap : ∀ fuel lines chunks total s chunks' total',
  total ≤ 500000 →
  (lines ≠ [] → ∃ k, total = chunk_size * k ∧ total < 500000) →
  (chunk_loop (iter_chunks fuel header c lines) chunks total s).1 = Ok (chunks', total') →
  total' ≤ 500000.
Proof.
  unfold chunk_size in *.
  induction fuel as [|fuel IH]; intros lines chunks total s chunks' total' Hle Hinv.
  - cbn. intros [= _ <-]. done.
  - destruct lines as [|line lines]; [cbn; intros [= _ <-]; done|].
    cbn [iter_chunks].
    destruct (parse_rows header (take c (line :: lines))) as [rs|e] eqn:Hparse;
      [|cbn; discriminate].
    apply parse_rows_Ok in Hparse.
    destruct Hinv as (k & Hk & Hlt); [done|].
    rewrite chunk_loop_step. cbn zeta.
    assert (len (mkDataFrame header rs) = Z.of_nat (c `min` length (line :: lines)))
      as Hlen by (unfold len; cbn [rows]; by rewrite Hparse, length_fmap, length_take).
    rewrite Hlen.
    destruct (Z.leb_spec 500000 (total + Z.of_nat (c `min` length (line :: lines)))) as [Hcap|Hcap].
    + cbn. intros [= _ <-]. lia.
    + apply IH; [lia|].
      intros Hrest. exists (k + 1).
      assert (length (drop c (line :: lines)) ≠ 0)%nat as Hd
        by (destruct (drop c (line :: lines)); cbn; [done|lia]).
      rewrite length_drop in Hd. lia.
Qed.

Lemma chunk_loop_well_formed : ∀ fuel lines chunks total s,
  well_formed_body header lines →
  (length lines ≤ fuel)%nat →
  total ≤ 500000 →
  (lines ≠ [] → ∃ k, total = chunk_size * k ∧ total < 500000) →
  ∃ new out,
    chunk_loop (iter_chunks fuel header c lines) chunks total s =
      (Ok (chunks ++ new, total + Z.of_nat (length lines) `min` (500000 - total)), shown s out) ∧
    concat (rows <$> new) = mk_row header <$> take (Z.to_nat (500000 - total)) lines ∧
    Forall (λ d, columns d = header) new ∧
    (lines ≠ [] → new ≠ [] ∧ progress_values out ≠ []) ∧
    (limit_warning ∈ out ↔ lines ≠ [] ∧ 500000 ≤ total + Z.of_nat (length lines)).
Proof.
  unfold chunk_size in *.
  induction fuel as [|fuel IH]; intros lines chunks total s Hwf Hfuel Hle Hinv.
  - destruct lines; [|cbn in Hfuel; lia].
    exists [], []. rewrite shown_nil, app_nil_r, take_nil.
    replace (total + Z.of_nat (length (@nil (list scalar))) `min` (500000 - total))
      with total by (cbn; lia).
    split_and!; try done. split; [by intros ?%elem_of_nil|by intros [? _]].
  - destruct lines as [|line lines].
    { exists [], []. rewrite shown_nil, app_nil_r, take_nil.
      replace (total + Z.of_nat (length (@nil (list scalar))) `min` (500000 - total))
        with total by (cbn; lia).
      split_and!; try done. split; [by intros ?%elem_of_nil|by intros [? _]]. }
    cbn [iter_chunks].
    rewrite (parse_rows_well_formed _ _ (well_formed_take _ c _ Hwf)).
    destruct Hinv as (k & Hk & Hlt); [done|].
    rewrite chunk_loop_step. cbn zeta.
    set (lines0 := line :: lines) in *.
    assert (length lines0 ≠ 0)%nat as Hne by (subst lines0; cbn; lia).
    assert (len (mkDataFrame header (mk_row header <$> take c lines0))
            = Z.of_nat (c `min` length lines0))
      as Hlen by (unfold len; cbn [rows]; by rewrite length_fmap, length_take).
    rewrite Hlen.
    destruct (Z.leb_spec 500000 (total + Z.of_nat (c `min` length lines0))) as [Hcap|Hcap].
    + exists [mkDataFrame header (mk_row header <$> take c lines0)]. eexists.
      rewrite shown_app.
      replace (total + Z.of_nat (length lines0) `min` (500000 - total))
        with (total + Z.of_nat (c `min` length lines0)) by lia.
      split; [reflexivity|].
      split_and!.
      * cbn. rewrite app_nil_r. do 2 f_equal. lia.
      * by repeat constructor.
      * intros _. by cbn.
      * split; [intros _; split; [by subst lines0|lia]|]. intros _. set_solver.
    + destruct (IH (drop c lines0)
                  (chunks ++ [mkDataFrame header (mk_row header <$> take c lines0)])
                  (total + Z.of_nat (c `min` length lines0))
                  (shown s [progress_bar_progress
                              (progress_value (total + Z.of_nat (c `min` length lines0)));
                            status_text_text (total + Z.of_nat (c `min` length lines0))]))
        as (new & out & Hrun & Hrows & Hcols & Hnonempty & Hwarn).
      * by apply well_formed_drop.
      * rewrite length_drop. subst lines0; cbn in *; lia.
      * lia.
      * intros Hrest. exists (k + 1).
        assert (length (drop c lines0) ≠ 0)%nat as Hd
          by (destruct (drop c lines0); cbn; [done|lia]).
        rewrite length_drop in Hd. lia.
      * exists (mkDataFrame header (mk_row header <$> take c lines0) :: new). eexists.
        rewrite Hrun, shown_app, <- app_assoc. cbn [app].
        replace (total + Z.of_nat (length lines0) `min` (500000 - total))
          with (total + Z.of_nat (c `min` length lines0) +
                Z.of_nat (length (drop c lines0)) `min`
                  (500000 - (total + Z.of_nat (c `min` length lines0))))
          by (rewrite length_drop; lia).
        split; [reflexivity|].
        split_and!.
        -- cbn [fmap list_fmap concat rows]. rewrite Hrows, <- fmap_app. f_equal.
           destruct (decide (length lines0 ≤ c)%nat).
           ++ rewrite drop_ge, take_nil, app_nil_r by done.
              rewrite !take_ge; [done|lia|done].
           ++ replace (Z.to_nat (500000 - total))
                with (c + Z.to_nat (500000 - (total + Z.of_nat (c `min` length lines0))))%nat
                by lia.
              by rewrite take_take_drop.
        -- by constructor.
        -- intros _. by cbn.
        -- rewrite elem_of_cons, elem_of_cons, Hwarn, length_drop.
           split.
           ++ intros [?|[?|[Hrest Hge]]]; [done|done|].
              split; [by subst lines0|lia].
           ++ intros [_ Hge]. right; right. split; [|lia].
              intros Hnil. apply (f_equal length) in Hnil.
              rewrite length_drop in Hnil.
              change (length (@nil (list scalar))) with 0%nat in Hnil. lia.
Qed.

End ChunkLoop.

(** ** The sample load and its memo table *)

Lemma read_csv_nrows_Exception fs path nrows e :
  read_csv_nrows fs path nrows = Raise e → is_Exception e = true.
Proof.
  unfold read_csv_nrows.
  destruct (nrows <? 0); [by intros [= <-]|].
  destruct (fs path) as [| | |h body]; try by intros [= <-].
  destruct (parse_rows _ _) eqn:Hp; [done|].
  intros [= <-]. by rewrite (parse_rows_Raise _ _ _ Hp).
Qed.

Lemma read_csv_chunks_Exception fs path chunksize e :
  read_csv_chunks fs path chunksize = Raise e → is_Exception e = true.
Proof.
  unfold read_csv_chunks.
  destruct (chunksize <? 1); [by intros [= <-]|].
  destruct (fs path) as [| | |h body]; by intros [= <-].
Qed.

Lemma load_sample_data_body_unbound fs nrows s :
  g_df s = Unbound →
  load_sample_data_body fs nrows s =
    (Ok PyNone, shown s [st_error (ErrorLoadingDataset (sample_error fs nrows))]).
Proof.
  intros Hdf. unfold load_sample_data_body, sample_error, try_except.
  unfold mbind, M_bind, lift, get_df, raise.
  destruct (read_csv_nrows fs "metadata.csv" nrows) as [d|e] eqn:Hread.
  - rewrite Hdf. reflexivity.
  - rewrite (read_csv_nrows_Exception _ _ _ _ Hread). reflexivity.
Qed.

Lemma cache_consistent_entry fs c nrows entry :
  cache_consistent fs c → c !! nrows = Some entry →
  entry = (None, [st_error (ErrorLoadingDataset (sample_error fs nrows))]).
Proof.
  intros Hc Hentry. destruct (Hc _ _ Hentry) as (s0 & v & s1 & Hdf & Hrun & ->).
  rewrite load_sample_data_body_unbound in Hrun by done.
  injection Hrun as <- <-. cbn. by rewrite drop_app_length.
Qed.

Lemma cache_consistent_empty fs : cache_consistent fs ∅.
Proof. intros nrows entry Hentry. by rewrite lookup_empty in Hentry. Qed.

Lemma cache_consistent_insert fs c nrows :
  cache_consistent fs c →
  cache_consistent fs
    (<[nrows := (None, [st_error (ErrorLoadingDataset (sample_error fs nrows))])]> c).
Proof.
  intros Hc n entry. rewrite lookup_insert. case_decide as Hn.
  - subst n. intros [= <-].
    exists (init_state ∅), PyNone,
      (shown (init_state ∅) [st_error (ErrorLoadingDataset (sample_error fs nrows))]).
    split; [done|]. split; [by apply load_sample_data_body_unbound|done].
  - apply Hc.
Qed.

Lemma replay_shown out : ∀ s, replay out s = (Ok tt, shown s out).
Proof.
  induction out as [|e out IH]; intros s; cbn.
  - by rewrite shown_nil.
  - unfold mbind, M_bind, emit. by rewrite IH, shown_app.
Qed.

(** The sample load when [df] is not bound and the memo table is consistent. *)
Lemma load_sample_data_unbound fs nrows s :
  cache_consistent fs (st_cache s) → g_df s = Unbound →
  ∃ c', load_sample_data fs nrows s =
          (Ok PyNone,
           mkState (st_ui s ++ [st_error (ErrorLoadingDataset (sample_error fs nrows))])
             c' (st_heap s) (g_df s) (g_filtered s)) ∧
        cache_consistent fs c'.
Proof.
  intros Hc Hdf. unfold load_sample_data, cache_data.
  unfold mbind at 1, M_bind at 1, get_state at 1.
  destruct (st_cache s !! nrows) as [entry|] eqn:Hentry.
  - rewrite (cache_consistent_entry _ _ _ _ Hc Hentry).
    exists (st_cache s). split; [|done].
    unfold mbind, M_bind. rewrite replay_shown. reflexivity.
  - eexists. split.
    + unfold mbind, M_bind. rewrite load_sample_data_body_unbound by done.
      unfold get_state, cache_store. cbn. rewrite drop_app_length. reflexivity.
    + by apply cache_consistent_insert.
Qed.

Lemma cache_data_hit_frame f nrows s d out :
  st_cache s !! nrows = Some (Some d, out) →
  cache_data f nrows s =
    (Ok (PyRef (length (st_heap s))),
     mkState (st_ui s ++ out) (st_cache s) (st_heap s ++ [d]) (g_df s) (g_filtered s)).
Proof.
  intros H. unfold cache_data, mbind, M_bind, get_state. cbv beta iota. rewrite H.
  by rewrite replay_shown.
Qed.

Lemma cache_data_hit_None f nrows s out :
  st_cache s !! nrows = Some (None, out) →
  cache_data f nrows s = (Ok PyNone, shown s out).
Proof.
  intros H. unfold cache_data, mbind, M_bind, get_state. cbv beta iota. rewrite H.
  by rewrite replay_shown.
Qed.

Lemma cache_data_miss f nrows s v s' :
  st_cache s !! nrows = None → f nrows s = (Ok v, s') →
  cache_data f nrows s =
    (Ok v,
     mkState (st_ui s')
       (<[nrows := (deref s' v, drop (length (st_ui s)) (st_ui s'))]> (st_cache s'))
       (st_heap s') (g_df s') (g_filtered s')).
Proof.
  intros H Hf. unfold cache_data, mbind, M_bind, get_state. cbv beta iota.
  rewrite H, Hf. reflexivity.
Qed.

(** What the body of [load_sample_data] returns: [None], or the object the
    global [df] is bound to. *)
Lemma load_sample_data_body_run fs nrows s :
  ∃ v out, load_sample_data_body fs nrows s = (Ok v, shown s out) ∧
           (v = PyNone ∨ ∃ l, v = PyRef l).
Proof.
  unfold load_sample_data_body, try_except, mbind, M_bind, lift, get_df, raise, emit.
  destruct (read_csv_nrows fs "metadata.csv" nrows) as [d|e] eqn:Hread.
  - destruct (g_df s) as [| |l] eqn:Hdf; cbn.
    + eexists _, _. split; [reflexivity|by left].
    + exists PyNone, []. rewrite shown_nil. split; [done|by left].
    + exists (PyRef l), []. rewrite shown_nil. split; [done|]. right. by exists l.
  - rewrite (read_csv_nrows_Exception _ _ _ _ Hread). cbn.
    eexists _, _. split; [reflexivity|by left].
Qed.

(** ** The Full branch *)

Lemma shown_inj s a b : shown s a = shown s b → a = b.
Proof. intros H. apply (f_equal st_ui) in H. cbn in H. by apply app_inv_head in H. Qed.

Lemma full_mode_try_Raise e s :
  full_mode_try (Raise e) s = (Raise e, shown s [st_progress 0; st_empty]).
Proof. unfold full_mode_try, mbind, M_bind, emit, lift. by rewrite shown_app. Qed.

Lemma full_mode_try_Ok it s :
  full_mode_try (Ok it) s =
  match chunk_loop it [] 0 (shown s [st_progress 0; st_empty]) with
  | (Raise e, s1) => (Raise e, s1)
  | (Ok ([], _), s1) => (Raise StopException, shown s1 [st_error (Text "No data loaded")])
  | (Ok (d :: ds, _), s1) =>
      (Ok tt,
       mkState (st_ui s1 ++ [progress_bar_empty; status_text_empty]) (st_cache s1)
         (st_heap s1 ++ [mkDataFrame (columns d) (concat (rows <$> d :: ds))])
         (PyRef (length (st_heap s1))) (g_filtered s1))
  end.
Proof.
  unfold full_mode_try, mbind, M_bind, emit, lift. rewrite shown_app. cbn [app].
  destruct (chunk_loop it [] 0 _) as [[[[|d ds] total]|e] s1]; try reflexivity.
  cbn. by rewrite shown_app.
Qed.

Lemma fallback_run fs e s :
  cache_consistent fs (st_cache s) → g_df s = Unbound →
  ∃ c', fallback fs e s =
          (Ok tt,
           mkState (st_ui s ++ [st_error (ErrorLoadingFullDataset e);
                                st_info (Text "Falling back to sample data...");
                                st_error (ErrorLoadingDataset (sample_error fs 10000))])
             c' (st_heap s) PyNone (g_filtered s)) ∧
        cache_consistent fs c'.
Proof.
  intros Hc Hdf. unfold fallback, mbind, M_bind, emit. rewrite shown_app. cbn [app].
  destruct (load_sample_data_unbound fs 10000
              (shown s [st_error (ErrorLoadingFullDataset e);
                        st_info (Text "Falling back to sample data...")]))
    as (c' & -> & Hc'); [done..|].
  exists c'. split; [|done]. unfold set_df. cbn. by rewrite <- app_assoc.
Qed.

Lemma chunk_loop_Raise it : ∀ chunks total s e s',
  chunk_loop it chunks total s = (Raise e, s') → Fault e ∈ it.
Proof.
  induction it as [|[chunk|e0] it IH]; intros chunks total s e s'.
  - cbn. discriminate.
  - rewrite chunk_loop_step. cbn zeta. destruct (500000 <=? _); [discriminate|].
    intros ?%IH. by right.
  - cbn. intros [= <- _]. by left.
Qed.

Lemma iter_chunks_Fault h c : ∀ fuel lines e,
  Fault e ∈ iter_chunks fuel h c lines → e = ParserError.
Proof.
  induction fuel as [|fuel IH]; intros lines e; cbn.
  - by intros ?%elem_of_nil.
  - destruct lines as [|line lines]; [by intros ?%elem_of_nil|].
    destruct (parse_rows _ _) as [rs|e0] eqn:Hp.
    + intros [?|?]%elem_of_cons; [done|by eapply IH].
    + intros [[= <-]|?%elem_of_nil]%elem_of_cons; [|done].
      by eapply parse_rows_Raise.
Qed.

Lemma read_csv_chunks_raises_Exceptions fs path chunksize :
  raises_Exceptions (read_csv_chunks fs path chunksize).
Proof.
  unfold raises_Exceptions.
  destruct (read_csv_chunks fs path chunksize) as [it|e] eqn:Hread.
  - intros e. revert Hread. unfold read_csv_chunks.
    destruct (chunksize <? 1); [done|].
    destruct (fs path) as [| | |h body]; try done.
    intros [= <-]. destruct body as [|line body].
    + intros [?|?%elem_of_nil]%elem_of_cons; done.
    + by intros ->%iter_chunks_Fault.
  - by eapply read_csv_chunks_Exception.
Qed.

(** The ways the Full branch ends, for a run of the script. *)
Lemma full_mode_outcome fs reader s :
  cache_consistent fs (st_cache s) → g_df s = Unbound → raises_Exceptions reader →
  ∃ out, Sorted Qle (progress_values out) ∧
    ((∃ it chunks d,
        reader = Ok it ∧
        chunk_loop it [] 0 (shown s [st_progress 0; st_empty])
          = (Ok (chunks, len d), shown s ([st_progress 0; st_empty] ++ out)) ∧
        pd_concat chunks = Ok d ∧
        last (progress_value 0 :: progress_values out) = Some (progress_value (len d)) ∧
        full_mode fs reader s =
          (Ok tt,
           mkState (st_ui s ++ [st_progress 0; st_empty] ++ out
                      ++ [progress_bar_empty; status_text_empty])
             (st_cache s) (st_heap s ++ [d]) (PyRef (length (st_heap s))) (g_filtered s)))
     ∨ (out = [] ∧
        full_mode fs reader s =
          (Raise StopException,
           shown s [st_progress 0; st_empty; st_error (Text "No data loaded")]))
     ∨ (∃ e c',
        cache_consistent fs c' ∧
        full_mode fs reader s =
          (Ok tt,
           mkState (st_ui s ++ [st_progress 0; st_empty] ++ out
                      ++ [st_error (ErrorLoadingFullDataset e);
                          st_info (Text "Falling back to sample data...");
                          st_error (ErrorLoadingDataset (sample_error fs 10000))])
             c' (st_heap s) PyNone (g_filtered s)))).
Proof.
  intros Hc Hdf Hexc. unfold full_mode, try_except.
  destruct reader as [it|e].
  - rewrite full_mode_try_Ok.
    destruct (chunk_loop_frame it [] 0 (shown s [st_progress 0; st_empty]))
      as (out & Hs & Hsorted & Hres).
    exists out. split; [by apply Sorted_inv in Hsorted as [? _]|].
    destruct (chunk_loop it [] 0 _) as [[[chunks total]|e] s1] eqn:Hloop;
      cbn [fst snd] in *; subst s1.
    + destruct (Hres _ _ eq_refl) as (Hlast & new & Hnew & Htotal).
      cbn in Hnew; subst new. destruct chunks as [|d ds].
      * right; left. cbn [is_Exception].
        destruct it as [|[chunk|e] it]; [| |done].
        -- unfold chunk_loop, mret, M_ret in Hloop.
           assert (shown (shown s [st_progress 0; st_empty]) []
                   = shown (shown s [st_progress 0; st_empty]) out) as <-%shown_inj
             by (rewrite shown_nil; congruence).
           split; [done|]. by rewrite shown_nil, shown_app.
        -- rewrite chunk_loop_step in Hloop. cbn zeta in Hloop.
           destruct (500000 <=? _) in Hloop.
           ++ injection Hloop as Hloop _. by destruct ([] ++ [chunk]).
           ++ destruct (chunk_loop_frame it ([] ++ [chunk]) (0 + len chunk)
                (shown (shown s [st_progress 0; st_empty])
                       [progress_bar_progress (progress_value (0 + len chunk));
                        status_text_text (0 + len chunk)])) as (? & _ & _ & Hres').
              rewrite Hloop in Hres'. destruct (Hres' _ _ eq_refl) as (_ & new & Hnew & _).
              done.
      * left. exists it, (d :: ds), (mkDataFrame (columns d) (concat (rows <$> d :: ds))).
        assert (total = len (mkDataFrame (columns d) (concat (rows <$> d :: ds)))) as ->
          by (rewrite Htotal; unfold total_len, len; cbn [rows]; lia).
        split_and!; try done.
        -- by rewrite Hloop, shown_app.
        -- rewrite shown_app. unfold shown. cbn. by rewrite <- !app_assoc.
    + right; right. apply chunk_loop_Raise, Hexc in Hloop. rewrite Hloop.
      destruct (fallback_run fs e (shown (shown s [st_progress 0; st_empty]) out))
        as (c' & Hrun & Hc'); [done..|].
      exists e, c'. split; [done|]. rewrite Hrun. cbn. by rewrite <- !app_assoc.
  - rewrite full_mode_try_Raise. cbn in Hexc. rewrite Hexc.
    exists []. split; [constructor|]. right; right.
    destruct (fallback_run fs e (shown s [st_progress 0; st_empty]))
      as (c' & Hrun & Hc'); [done..|].
    exists e, c'. split; [done|]. rewrite Hrun. cbn. by rewrite <- !app_assoc.
Qed.

Lemma load_section_full fs :
  load_section fs full = full_mode fs (read_csv_chunks fs source chunk_size).
Proof. reflexivity. Qed.

Lemma load_section_sample_small fs :
  load_section fs sample_small = (v ← load_sample_data fs 10000; set_df v).
Proof. reflexivity. Qed.

Lemma load_section_sample_medium fs :
  load_section fs sample_medium = (v ← load_sample_data fs 50000; set_df v).
Proof. reflexivity. Qed.

Lemma last_cons_ne {A} (x : A) l : l ≠ [] → last (x :: l) = last l.
Proof. by destruct l. Qed.

(** The Full branch on a well-formed source. *)
Lemma full_mode_well_formed fs header body s :
  fs source = Csv header body → well_formed_body header body →
  ∃ out,
    full_mode fs (read_csv_chunks fs source chunk_size) s =
      (Ok tt,
       mkState (st_ui s ++ [st_progress 0; st_empty] ++ out
                  ++ [progress_bar_empty; status_text_empty])
         (st_cache s)
         (st_heap s ++ [mkDataFrame header (mk_row header <$> take (Z.to_nat 500000) body)])
         (PyRef (length (st_heap s))) (g_filtered s)) ∧
    Sorted Qle (progress_values out) ∧
    last (progress_values out) = Some (progress_value (Z.of_nat (length body) `min` 500000)) ∧
    (limit_warning ∈ out ↔ 500000 ≤ Z.of_nat (length body)).
Proof.
  intros Hfs Hwf. unfold read_csv_chunks. rewrite Hfs.
  rewrite (data_lines_well_formed header body Hwf).
  change (chunk_size <? 1) with false. cbv iota.
  unfold full_mode, try_except. rewrite full_mode_try_Ok.
  destruct body as [|line body].
  - rewrite chunk_loop_step. cbn zeta.
    change (len (mkDataFrame header [])) with 0.
    change (500000 <=? 0 + 0) with false. cbv iota.
    exists [progress_bar_progress (progress_value 0); status_text_text 0].
    split_and!.
    + cbn. unfold shown. cbn. rewrite take_nil. by rewrite <- !app_assoc.
    + repeat constructor.
    + done.
    + split; [|cbn; lia].
      intros [?|[?|?%elem_of_nil]%elem_of_cons]%elem_of_cons; done.
  - set (lines := line :: body) in *.
    assert (lines ≠ []) as Hne by done.
    destruct (chunk_loop_well_formed header (Z.to_nat chunk_size)
                ltac:(unfold chunk_size; lia) (length lines) lines [] 0
                (shown s [st_progress 0; st_empty]) Hwf)
      as (new & out & Hrun & Hrows & Hcols & Hnonempty & Hwarn);
      [lia|lia|intros _; exists 0; unfold chunk_size; lia|].
    destruct (Hnonempty Hne) as [Hnew Hpvs].
    destruct (chunk_loop_frame (iter_chunks (length lines) header (Z.to_nat chunk_size) lines)
                [] 0 (shown s [st_progress 0; st_empty]))
      as (out' & Hs & Hsorted & Hres).
    rewrite Hrun in Hs, Hres. cbn [fst snd] in Hs, Hres.
    apply shown_inj in Hs as <-.
    destruct (Hres _ _ eq_refl) as [Hlast _].
    replace (500000 - 0) with 500000 in * by lia.
    change (match lines with [] => [Chunk (mkDataFrame header [])]
            | _ :: _ => iter_chunks (length lines) header (Z.to_nat chunk_size) lines end)
      with (iter_chunks (length lines) header (Z.to_nat chunk_size) lines).
    rewrite Hrun. exists out.
    destruct new as [|d ds]; [done|]. cbn [app].
    split_and!.
    + rewrite Hrows. apply Forall_cons in Hcols as [-> _].
      unfold shown. cbn. by rewrite <- !app_assoc.
    + by apply Sorted_inv in Hsorted as [? _].
    + rewrite last_cons_ne in Hlast by done. by rewrite Z.add_0_l in Hlast.
    + rewrite Hwarn, Z.add_0_l. split; [by intros [_ ?]|by intros ?].
Qed.

Lemma check_loaded_ref s l :
  g_df s = PyRef l → check_loaded s = (Ok tt, s).
Proof. intros H. unfold check_loaded, mbind, M_bind, get_df. by rewrite H. Qed.

Lemma check_loaded_None s :
  g_df s = PyNone →
  check_loaded s = (Raise StopException, shown s [st_error (Text "Failed to load dataset")]).
Proof. intros H. unfold check_loaded, mbind, M_bind, get_df. by rewrite H. Qed.

Lemma load_run fs load_mode s :
  load fs load_mode s =
  match load_section fs load_mode s with
  | (Ok _, s') => check_loaded s'
  | (Raise e, s') => (Raise e, s')
  end.
Proof. unfold load, mbind, M_bind. by destruct (load_section _ _ _) as [[[]|] ?]. Qed.

Lemma read_csv_chunks_cap fs path it chunks total s s' :
  read_csv_chunks fs path chunk_size = Ok it →
  chunk_loop it [] 0 s = (Ok (chunks, total), s') → total ≤ 500000.
Proof.
  unfold read_csv_chunks. change (chunk_size <? 1) with false. cbv iota.
  destruct (fs path) as [| | |header body]; try done.
  intros [= <-] Hloop. destruct body as [|line body].
  - rewrite chunk_loop_step in Hloop. cbn zeta in Hloop.
    change (len (mkDataFrame header [])) with 0 in Hloop.
    change (500000 <=? 0 + 0) with false in Hloop. cbv iota in Hloop.
    unfold chunk_loop, mret, M_ret in Hloop. injection Hloop as _ <- _. lia.
  - eapply (chunk_loop_cap header (Z.to_nat chunk_size));
      [unfold chunk_size; lia| | |by rewrite Hloop]; [lia|].
    intros _. exists 0. unfold chunk_size. lia.
Qed.

Lemma limit_warning_in_log out :
  limit_warning ∈ [st_progress 0; st_empty] ++ out ++ [progress_bar_empty; status_text_empty]
  ↔ limit_warning ∈ out.
Proof.
  rewrite !elem_of_app, !elem_of_cons, !elem_of_nil. unfold limit_warning.
  split; [|by auto]. intros [[?|[?|?]]|[?|[?|[?|?]]]]; done.
Qed.

Lemma progress_values_log out tail :
  progress_values tail = [] →
  progress_values ([st_progress 0; st_empty] ++ out ++ tail) = progress_values out.
Proof.
  intros Htail. rewrite !progress_values_app, Htail, app_nil_r. reflexivity.
Qed.

Lemma sample_load_run fs c nrows :
  cache_consistent fs c →
  ∃ c',
    (v ← load_sample_data fs nrows; set_df v;; check_loaded) (init_state c) =
      (Raise StopException,
       mkState [st_error (ErrorLoadingDataset (sample_error fs nrows));
                st_error (Text "Failed to load dataset")] c' [] PyNone Unbound) ∧
    cache_consistent fs c'.
Proof.
  intros Hc.
  destruct (load_sample_data_unbound fs nrows (init_state c)) as (c' & Hrun & Hc'); [done..|].
  exists c'. split; [|done].
  unfold mbind, M_bind. rewrite Hrun. reflexivity.
Qed.

Lemma load_sample_small fs s :
  load fs sample_small s = (v ← load_sample_data fs 10000; set_df v;; check_loaded) s.
Proof.
  unfold load. rewrite load_section_sample_small. unfold mbind, M_bind.
  by destruct (load_sample_data fs 10000 s) as [[v|e] s'].
Qed.

Lemma load_sample_medium fs s :
  load fs sample_medium s = (v ← load_sample_data fs 50000; set_df v;; check_loaded) s.
Proof.
  unfold load. rewrite load_section_sample_medium. unfold mbind, M_bind.
  by destruct (load_sample_data fs 50000 s) as [[v|e] s'].
Qed.

(** In the Sample modes a run of the script always stops: whether the read
    raises or not, [load_sample_data] returns [None]. *)
Lemma sample_load_stops fs c load_mode :
  cache_consistent fs c →
  ∀ nrows,
    (load_mode, nrows) ∈ [(sample_small, 10000); (sample_medium, 50000)] →
    (load fs load_mode (init_state c)).1 = Raise StopException ∧
    g_df (load fs load_mode (init_state c)).2 = PyNone ∧
    st_heap (load fs load_mode (init_state c)).2 = [] ∧
    st_ui (load fs load_mode (init_state c)).2 =
      [st_error (ErrorLoadingDataset (sample_error fs nrows));
       st_error (Text "Failed to load dataset")].
Proof.
  intros Hc nrows Hmode.
  destruct (sample_load_run fs c nrows Hc) as (c' & Hrun & _).
  apply elem_of_cons in Hmode as [[= -> ->]|Hmode].
  { by rewrite load_sample_small, Hrun. }
  apply elem_of_cons in Hmode as [[= -> ->]|Hmode%elem_of_nil]; [|done].
  by rewrite load_sample_medium, Hrun.
Qed.

Lemma load_full fs load_mode s :
  load_mode ≠ sample_small → load_mode ≠ sample_medium →
  load fs load_mode s = (full_mode fs (read_csv_chunks fs source chunk_size);; check_loaded) s.
Proof.
  intros H1 H2. unfold load, load_section.
  rewrite decide_False by exact H1. rewrite decide_False by exact H2. reflexivity.
Qed.

(** ** Facts about the example inputs *)

Lemma titles_length n : 0 ≤ n → Z.of_nat (length (titles n)) = n.
Proof. intros Hn. unfold titles. rewrite length_replicate. lia. Qed.

Lemma titles_well_formed n : well_formed_body ["title"] (titles n).
Proof. unfold well_formed_body, titles. apply Forall_replicate. cbn. lia. Qed.

Lemma read_csv_nrows_head fs path nrows header body :
  0 ≤ nrows → fs path = Csv header body →
  well_formed_body header (take (Z.to_nat nrows) body) →
  read_csv_nrows fs path nrows =
    Ok (mkDataFrame header (mk_row header <$> take (Z.to_nat nrows) body)).
Proof.
  intros Hn Hfs Hwf. unfold read_csv_nrows.
  destruct (Z.ltb_spec nrows 0); [lia|].
  by rewrite Hfs, take_data_lines_well_formed, parse_rows_well_formed.
Qed.

(** ** The derived views *)

Lemma frame_of_ref s l d :
  st_heap s !! l = Some d → frame_of (PyRef l) s = (Ok d, s).
Proof. intros H. unfold frame_of. cbn. by rewrite H. Qed.

Lemma df_setitem_ref c value s l d :
  g_df s = PyRef l → st_heap s !! l = Some d →
  df_setitem c value s =
    (Ok tt, mkState (st_ui s) (st_cache s) (<[l := setitem c value d]> (st_heap s))
              (PyRef l) (g_filtered s)).
Proof.
  intros Hdf Hl. unfold df_setitem, mbind, M_bind, get_df.
  rewrite Hdf.
  rewrite (frame_of_ref _ _ _ Hl).
  unfold modify.
  rewrite Hl. by rewrite Hdf.
Qed.

Lemma cell_setitem c value d row :
  row ∈ rows (setitem c value d) → ∃ row0, row0 ∈ rows d ∧ cell c row = value row0.
Proof.
  unfold setitem. cbn [rows]. intros (row0 & -> & Hrow0)%list_elem_of_fmap.
  exists row0. split; [done|]. unfold cell. by rewrite lookup_insert_eq.
Qed.

Section ViewFacts.

Variable parse_datetime : string → option Timestamp.
Variable epoch_datetime : Z → option Timestamp.
Variable st_slider : Z → Z → Z * Z → result (Z * Z).

Abbreviation coerced := (setitem "publish_time"
  (λ r, to_datetime_coerce parse_datetime epoch_datetime (cell "publish_time" r))).
Abbreviation with_year := (setitem "year" (λ r, dt_year (cell "publish_time" r))).

Lemma prepare_without_dates s l d :
  g_df s = PyRef l → st_heap s !! l = Some d → "publish_time" ∉ columns d →
  prepare parse_datetime epoch_datetime s =
    (Ok tt,
     mkState
       (st_ui s ++ [st_warning (Text "'publish_time' column not found. Using available data.")])
       (st_cache s) (<[l := setitem "year" (λ _, SNum 2020) d]> (st_heap s))
       (PyRef l) (g_filtered s)).
Proof.
  intros Hdf Hl Hcol. unfold prepare.
  unfold mbind at 1, M_bind at 1, get_df at 1. rewrite Hdf.
  unfold mbind at 1, M_bind at 1. rewrite (frame_of_ref _ _ _ Hl).
  rewrite bool_decide_eq_false_2 by done.
  unfold mbind, M_bind, emit.
  rewrite (df_setitem_ref _ _ (shown s _) l d) by done.
  reflexivity.
Qed.

Lemma prepare_with_dates s l d :
  g_df s = PyRef l → st_heap s !! l = Some d → "publish_time" ∈ columns d →
  prepare parse_datetime epoch_datetime s =
    (Ok tt,
     mkState (st_ui s) (st_cache s)
       (<[l := coerced d]> (st_heap s) ++ [with_year (dropna "publish_time" (coerced d))])
       (PyRef (length (st_heap s))) (g_filtered s)).
Proof.
  intros Hdf Hl Hcol. unfold prepare.
  unfold mbind at 1, M_bind at 1, get_df at 1. rewrite Hdf.
  unfold mbind at 1, M_bind at 1. rewrite (frame_of_ref _ _ _ Hl).
  rewrite bool_decide_eq_true_2 by done.
  unfold mbind at 1, M_bind at 1. rewrite (df_setitem_ref _ _ _ l d) by done.
  assert (l < length (st_heap s))%nat as Hlt by by eapply lookup_lt_Some.
  unfold mbind at 1, M_bind at 1, get_df at 1. cbn [g_df].
  unfold mbind at 1, M_bind at 1.
  erewrite frame_of_ref by (cbn [st_heap]; by apply list_lookup_insert_eq).
  unfold mbind at 1, M_bind at 1, alloc. cbn [st_heap st_ui st_cache g_df g_filtered].
  unfold mbind at 1, M_bind at 1, set_df. cbn [st_heap st_ui st_cache g_df g_filtered].
  rewrite (df_setitem_ref _ _ _ (length (<[l := coerced d]> (st_heap s)))
             (dropna "publish_time" (coerced d)));
    cbn [st_heap st_ui st_cache g_df g_filtered].
  - rewrite insert_app_r_alt, Nat.sub_diag by lia. cbn [insert list_insert].
    by rewrite length_insert.
  - done.
  - by apply list_lookup_middle.
Qed.

Lemma year_filter_heap s :
  ∃ tail, st_heap (year_filter st_slider s).2 = st_heap s ++ tail ∧
          g_df (year_filter st_slider s).2 = g_df s.
Proof.
  unfold year_filter, mbind, M_bind, get_df.
  destruct (frame_of (g_df s) s) as [[d|e] s'] eqn:Hframe.
  - assert (s' = s) as ->.
    { unfold frame_of in Hframe. destruct (g_df s); [congruence|..];
        destruct (deref s _); congruence. }
    destruct (bool_decide _ && _).
    + unfold lift. destruct (st_slider _ _ _) as [year_range|e].
      * exists [select (between "year" year_range.1 year_range.2) d]. by cbn.
      * exists []. cbn. by rewrite app_nil_r.
    + exists []. cbn. by rewrite app_nil_r.
  - assert (s' = s) as ->.
    { unfold frame_of in Hframe. destruct (g_df s); [congruence|..];
        destruct (deref s _); congruence. }
    exists []. cbn. by rewrite app_nil_r.
Qed.

End ViewFacts.

(** A Full load of a well-formed source, then the preparation block, when
    the header has no [publish_time]. *)
Lemma full_load_then_prepare_without_dates parse_datetime epoch_datetime fs c header body :
  fs source = Csv header body → well_formed_body header body →
  "publish_time" ∉ header →
  let r := (load fs full;; prepare parse_datetime epoch_datetime) (init_state c) in
  r.1 = Ok tt ∧
  deref r.2 (g_df r.2) =
    Some (setitem "year" (λ _, SNum 2020)
            (mkDataFrame header (mk_row header <$> take (Z.to_nat 500000) body))).
Proof.
  intros Hfs Hwf Hcol r. subst r. unfold mbind, M_bind.
  rewrite load_run, load_section_full.
  destruct (full_mode_well_formed fs header body (init_state c) Hfs Hwf)
    as (out & -> & _ & _ & _).
  rewrite (check_loaded_ref _ 0) by done.
  erewrite (prepare_without_dates _ _ _ 0%nat) by (cbn; done).
  split; [done|]. reflexivity.
Qed.

(** A run of the whole modelled script on the dated source: the loaded
    object keeps its three rows with coerced dates, [df] names the two rows
    with a date and their years, and [filtered] a third object with the same
    two rows, both years being in the slider's default range. *)
Example script_on_dated_source :
  let r := script (file_system Directory dated) example_parse no_epoch default_range full
             (init_state ∅) in
  r.1 = Ok tt ∧
  g_df r.2 = PyRef 1%nat ∧ g_filtered r.2 = PyRef 2%nat ∧
  (column "publish_time" <$> (st_heap r.2 !! 0%nat))
    = Some [SDate (mkTimestamp 2020 3 1); SNull; SDate (mkTimestamp 2021 7 15)] ∧
  (column "year" <$> (st_heap r.2 !! 1%nat)) = Some [SNum 2020; SNum 2021] ∧
  (column "title" <$> (st_heap r.2 !! 2%nat)) = Some [SStr "A"; SStr "C"].
Proof. vm_compute. done. Qed.

(** * The claims *)

(** C1.  Whatever the file system holds, the DataFrame that [df] names after
    a Full-mode load has at most 500,000 rows; and the chunk loop ends at the
    chunk that brings [total_rows] to 500,000 or more, whatever the iterator
    still holds. *)
Theorem full_load_row_cap fs c :
  cache_consistent fs c →
  let s' := (load_section fs full (init_state c)).2 in
  (∀ d, deref s' (g_df s') = Some d → len d ≤ 500000) ∧
  (∀ chunk it chunks total s,
     500000 ≤ total + len chunk →
     chunk_loop (Chunk chunk :: it) chunks total s = chunk_loop [Chunk chunk] chunks total s).
Proof.
  intros Hc s'. split.
  - subst s'. rewrite load_section_full.
    destruct (full_mode_outcome fs (read_csv_chunks fs source chunk_size) (init_state c))
      as (out & _ & [(it & chunks & d0 & Hread & Hloop & _ & _ & ->)
                    |[[_ ->]|(e & c' & _ & ->)]]);
      [done|done|apply read_csv_chunks_raises_Exceptions|..]; cbn; try done.
    intros d [= <-]. by eapply read_csv_chunks_cap.
  - intros chunk it chunks total s Hcap. rewrite !chunk_loop_step. cbn zeta.
    by destruct (Z.leb_spec 500000 (total + len chunk)); [|lia].
Qed.

(** C1, at the three-line source and an empty memo table. *)
Lemma full_load_row_cap_witness :
  cache_consistent small_fs ∅ ∧
  deref (load_section small_fs full (init_state ∅)).2
        (g_df (load_section small_fs full (init_state ∅)).2) = Some (all_rows three_rows) ∧
  len (all_rows three_rows) ≤ 500000.
Proof.
  assert (cache_consistent small_fs ∅) as H
    by (intros nrows entry Hentry; rewrite lookup_empty in Hentry; discriminate Hentry).
  split; [exact H|]. split; [reflexivity|].
  apply (proj1 (full_load_row_cap small_fs ∅ H)). reflexivity.
Defined.

(** C2, the code at a three-line [metadata.csv] in SampleSmall mode: the
    read inside [load_sample_data] yields the three rows, the frame is bound
    to no name, [return df] raises [NameError], the function returns [None]
    and the script stops with "Failed to load dataset". *)
Lemma sample_load_drops_the_frame :
  let fs := file_system three_rows Absent in
  (∃ d, read_csv_nrows fs "metadata.csv" 10000 = Ok d ∧ len d = 3) ∧
  let r := load fs sample_small (init_state ∅) in
  r.1 = Raise StopException ∧ g_df r.2 = PyNone ∧ st_heap r.2 = [] ∧
  st_ui r.2 = [st_error (ErrorLoadingDataset NameError);
               st_error (Text "Failed to load dataset")].
Proof.
  split.
  - eexists. split; [vm_compute; reflexivity|reflexivity].
  - vm_compute. done.
Qed.

(** C3 fails at a well-formed source of exactly 500,000 rows: the rows are
    all loaded and the limit warning is shown all the same. *)
Lemma full_load_at_limit_warns :
  let fs := file_system Directory (Csv ["title"] (titles 500000)) in
  fs source = Csv ["title"] (titles 500000) ∧
  well_formed_body ["title"] (titles 500000) ∧
  Z.of_nat (length (titles 500000)) ≤ 500000 ∧
  ¬ (limit_warning ∉ st_ui (load fs full (init_state ∅)).2).
Proof.
  intros fs. split_and!.
  - reflexivity.
  - apply titles_well_formed.
  - rewrite titles_length; lia.
  - intros Hnot. apply Hnot. subst fs.
    rewrite load_run, load_section_full.
    destruct (full_mode_well_formed (file_system Directory (Csv ["title"] (titles 500000)))
                ["title"] (titles 500000) (init_state ∅) eq_refl (titles_well_formed _))
      as (out & -> & _ & _ & Hwarn).
    rewrite (check_loaded_ref _ 0) by reflexivity.
    cbn [snd st_ui init_state]. rewrite app_nil_l, limit_warning_in_log, Hwarn.
    rewrite titles_length; lia.
Qed.

(** C3, amended.  A Full-mode load of a well-formed source of R <= 500,000
    rows succeeds and [df] names exactly the R rows of the file, in order;
    the limit warning is shown if and only if R = 500,000. *)
Theorem full_load_within_limit fs c header body :
  fs source = Csv header body →
  well_formed_body header body →
  Z.of_nat (length body) ≤ 500000 →
  let r := load fs full (init_state c) in
  r.1 = Ok tt ∧
  deref r.2 (g_df r.2) = Some (mkDataFrame header (mk_row header <$> body)) ∧
  (limit_warning ∈ st_ui r.2 ↔ Z.of_nat (length body) = 500000).
Proof.
  intros Hfs Hwf HR r. subst r. rewrite load_run, load_section_full.
  destruct (full_mode_well_formed fs header body (init_state c) Hfs Hwf)
    as (out & -> & _ & _ & Hwarn).
  rewrite (check_loaded_ref _ 0) by done.
  rewrite take_ge by lia. split_and!; [done..|].
  cbn [snd st_ui init_state]. rewrite app_nil_l, limit_warning_in_log, Hwarn. lia.
Qed.

(** C3 amended, at the three-line source. *)
Lemma full_load_within_limit_witness :
  small_fs source = three_rows ∧
  well_formed_body ["title"; "publish_time"]
    [[SStr "A"; SStr "2020-03-01"]; [SStr "B"; SStr "2021-07-15"]; [SStr "C"]] ∧
  Z.of_nat 3 ≤ 500000 ∧
  (load small_fs full (init_state ∅)).1 = Ok tt ∧
  (len <$> deref (load small_fs full (init_state ∅)).2
                 (g_df (load small_fs full (init_state ∅)).2)) = Some 3.
Proof.
  assert (well_formed_body ["title"; "publish_time"]
    [[SStr "A"; SStr "2020-03-01"]; [SStr "B"; SStr "2021-07-15"]; [SStr "C"]]) as Hwf
    by (unfold well_formed_body; repeat constructor).
  assert (Z.of_nat 3 ≤ 500000) as Hle by lia.
  split; [reflexivity|]. split; [exact Hwf|]. split; [exact Hle|].
  destruct (full_load_within_limit small_fs ∅ _ _ eq_refl Hwf Hle) as (H1 & H2 & _).
  split; [exact H1|]. rewrite H2. reflexivity.
Defined.

(** C4, the code at a source whose line 10,001 is malformed, in Full mode:
    SampleSmall on that source would yield 10,000 rows, but the fallback
    reads [metadata.csv], a directory, and the script stops without a
    DataFrame. *)
Lemma full_fallback_reads_another_path :
  let fs := file_system Directory late_fault in
  (∃ d, read_csv_nrows fs source 10000 = Ok d ∧ len d = 10000) ∧
  let r := load fs full (init_state ∅) in
  r.1 = Raise StopException ∧ g_df r.2 = PyNone ∧ st_heap r.2 = [] ∧
  st_ui r.2 = [st_progress 0; st_empty;
               st_error (ErrorLoadingFullDataset ParserError);
               st_info (Text "Falling back to sample data...");
               st_error (ErrorLoadingDataset IsADirectoryError);
               st_error (Text "Failed to load dataset")].
Proof.
  split.
  - eexists. split.
    + apply read_csv_nrows_head; [lia|reflexivity|].
      rewrite take_app_length' by (unfold titles; by rewrite length_replicate).
      apply titles_well_formed.
    + unfold len. cbn [rows]. rewrite length_fmap, length_take, length_app.
      unfold titles. rewrite length_replicate. cbn [length]. lia.
  - vm_compute. done.
Qed.

(** C5 fails at a well-formed source of 600,000 rows: the limit is hit and
    the last progress value is 1/2, not 1. *)
Lemma full_load_capped_progress_is_half :
  let fs := file_system Directory (Csv ["title"] (titles 600000)) in
  let s' := (load_section fs full (init_state ∅)).2 in
  limit_warning ∈ st_ui s' ∧
  ∃ v, last (progress_values (st_ui s')) = Some v ∧ (v == 1 # 2)%Q ∧ ¬ (v == 1)%Q.
Proof.
  intros fs s'. subst s' fs. rewrite load_section_full.
  destruct (full_mode_well_formed (file_system Directory (Csv ["title"] (titles 600000)))
              ["title"] (titles 600000) (init_state ∅) eq_refl (titles_well_formed _))
    as (out & -> & _ & Hlast & Hwarn).
  cbn [snd st_ui init_state]. rewrite app_nil_l, progress_values_log by done.
  rewrite titles_length in Hlast, Hwarn by lia.
  split; [rewrite limit_warning_in_log, Hwarn; lia|].
  exists (progress_value 500000). split; [exact Hlast|].
  split; [reflexivity|]. intros H. discriminate H.
Qed.

(** C5, amended.  The progress values of a Full-mode load are non-decreasing;
    on a well-formed source of R rows the last one is
    min(R, 500,000) / 1,000,000, so R / 1,000,000 when the file is exhausted
    and 1/2 when the limit is hit: it never exceeds 1/2. *)
Theorem full_load_progress fs c :
  cache_consistent fs c →
  let s' := (load_section fs full (init_state c)).2 in
  Sorted Qle (progress_values (st_ui s')) ∧
  ∀ header body,
    fs source = Csv header body → well_formed_body header body →
    last (progress_values (st_ui s'))
      = Some (progress_value (Z.of_nat (length body) `min` 500000)) ∧
    (progress_value (Z.of_nat (length body) `min` 500000)
       == Z.of_nat (length body) `min` 500000 # 1000000)%Q ∧
    (progress_value (Z.of_nat (length body) `min` 500000) <= 1 # 2)%Q.
Proof.
  intros Hc s'. subst s'. rewrite load_section_full. split.
  - destruct (full_mode_outcome fs (read_csv_chunks fs source chunk_size) (init_state c))
      as (out & Hsorted & [(it & chunks & d0 & _ & _ & _ & _ & ->)
                          |[[-> ->]|(e & c' & _ & ->)]]);
      [done|done|apply read_csv_chunks_raises_Exceptions|..];
      cbn [snd st_ui init_state shown]; rewrite ?app_nil_l.
    + by rewrite progress_values_log.
    + constructor.
    + by rewrite progress_values_log.
  - intros header body Hfs Hwf.
    destruct (full_mode_well_formed fs header body (init_state c) Hfs Hwf)
      as (out & -> & _ & Hlast & _).
    cbn [snd st_ui init_state]. rewrite app_nil_l, progress_values_log by done.
    split; [done|].
    assert ((progress_value (Z.of_nat (length body) `min` 500000)
             == Z.of_nat (length body) `min` 500000 # 1000000)%Q) as Hpv
      by (apply progress_value_below_cap; lia).
    split; [done|]. rewrite Hpv. unfold Qle. cbn [Qnum Qden]. lia.
Qed.

(** C5 amended, at the three-line source. *)
Lemma full_load_progress_witness :
  cache_consistent small_fs ∅ ∧
  small_fs source = three_rows ∧
  Sorted Qle (progress_values (st_ui (load_section small_fs full (init_state ∅)).2)) ∧
  last (progress_values (st_ui (load_section small_fs full (init_state ∅)).2))
    = Some (progress_value 3).
Proof.
  assert (cache_consistent small_fs ∅) as H
    by (intros nrows entry Hentry; rewrite lookup_empty in Hentry; discriminate Hentry).
  assert (well_formed_body ["title"; "publish_time"]
    [[SStr "A"; SStr "2020-03-01"]; [SStr "B"; SStr "2021-07-15"]; [SStr "C"]]) as Hwf
    by (unfold well_formed_body; repeat constructor).
  destruct (full_load_progress small_fs ∅ H) as [Hsorted Hlast].
  split; [exact H|]. split; [reflexivity|]. split; [exact Hsorted|].
  exact (proj1 (Hlast _ _ eq_refl Hwf)).
Defined.

(** C6.  In every mode the loader ends either with [df] naming a DataFrame
    or by [st.stop()] after an error message and with no DataFrame: no
    exception of a read reaches the rest of the script.  In the Sample modes
    a failed read gives exactly its own error message and the final one,
    [None] for [df] and no object: nothing else is tried. *)
Theorem load_failures_are_results fs c load_mode :
  cache_consistent fs c →
  let r := load fs load_mode (init_state c) in
  ((r.1 = Ok tt ∧ ∃ l d, g_df r.2 = PyRef l ∧ st_heap r.2 !! l = Some d) ∨
   (r.1 = Raise StopException ∧ deref r.2 (g_df r.2) = None ∧
    ∃ text, last (st_ui r.2) = Some (st_error (Text text)))) ∧
  (∀ nrows e,
     (load_mode, nrows) ∈ [(sample_small, 10000); (sample_medium, 50000)] →
     read_csv_nrows fs "metadata.csv" nrows = Raise e →
     r.1 = Raise StopException ∧
     g_df r.2 = PyNone ∧ st_heap r.2 = [] ∧
     st_ui r.2 = [st_error (ErrorLoadingDataset e); st_error (Text "Failed to load dataset")]).
Proof.
  intros Hc r.
  pose proof (sample_load_stops fs c load_mode Hc) as Hsample. fold r in Hsample.
  split.
  - destruct (decide (load_mode = sample_small)) as [Hm|Hm];
      [|destruct (decide (load_mode = sample_medium)) as [Hm'|Hm']].
    + right. destruct (Hsample 10000) as (-> & Hdf & _ & Hui); [rewrite Hm; by left|].
      rewrite Hdf, Hui. split_and!; [done..|]. by eexists.
    + right. destruct (Hsample 50000) as (-> & Hdf & _ & Hui);
        [rewrite Hm'; right; by left|].
      rewrite Hdf, Hui. split_and!; [done..|]. by eexists.
    + clear Hsample. subst r. rewrite load_full by done. unfold mbind, M_bind.
      destruct (full_mode_outcome fs (read_csv_chunks fs source chunk_size) (init_state c))
        as (out & _ & [(it & chunks & d0 & _ & _ & _ & _ & ->)
                      |[[_ ->]|(e & c' & _ & ->)]]);
        [done|done|apply read_csv_chunks_raises_Exceptions|..].
      * left. rewrite (check_loaded_ref _ 0) by done. split; [done|].
        by exists 0%nat, d0.
      * right. split_and!; [done..|]. by eexists.
      * right. rewrite check_loaded_None by done. split_and!; [done..|].
        eexists. cbn [snd st_ui shown init_state]. rewrite app_nil_l.
        rewrite !app_assoc. by rewrite last_snoc.
  - intros nrows e Hmode Hread.
    assert (sample_error fs nrows = e) as <- by (unfold sample_error; by rewrite Hread).
    by apply Hsample.
Qed.

(** C6, in SampleSmall mode where [metadata.csv] is a directory. *)
Lemma load_failures_are_results_witness :
  cache_consistent small_fs ∅ ∧
  (sample_small, 10000) ∈ [(sample_small, 10000); (sample_medium, 50000)] ∧
  read_csv_nrows small_fs "metadata.csv" 10000 = Raise IsADirectoryError ∧
  (load small_fs sample_small (init_state ∅)).1 = Raise StopException ∧
  st_ui (load small_fs sample_small (init_state ∅)).2
    = [st_error (ErrorLoadingDataset IsADirectoryError);
       st_error (Text "Failed to load dataset")].
Proof.
  assert (cache_consistent small_fs ∅) as H
    by (intros nrows entry Hentry; rewrite lookup_empty in Hentry; discriminate Hentry).
  assert ((sample_small, 10000) ∈ [(sample_small, 10000); (sample_medium, 50000)]) as Hin
    by left.
  destruct (load_failures_are_results small_fs ∅ sample_small H) as [_ Hsample].
  destruct (Hsample 10000 IsADirectoryError Hin eq_refl) as (H1 & _ & _ & H2).
  split; [exact H|]. split; [exact Hin|]. split; [reflexivity|]. split; [exact H1|exact H2].
Defined.

(** C7 fails at a loaded frame with an unparsable date: the preparation
    block overwrites the [publish_time] column of the loaded object itself;
    and at a loaded frame without dates it adds the [year] column to the
    loaded object itself. *)
Lemma prepare_changes_the_loaded_frame :
  let s := loaded_from dated in
  let s1 := (prepare example_parse no_epoch s).2 in
  g_df s = PyRef 0%nat ∧
  (column "publish_time" <$> (st_heap s !! 0%nat))
    = Some [SStr "2020-03-01"; SStr "not a date"; SStr "2021-07-15"] ∧
  (column "publish_time" <$> (st_heap s1 !! 0%nat))
    = Some [SDate (mkTimestamp 2020 3 1); SNull; SDate (mkTimestamp 2021 7 15)] ∧
  st_heap s1 !! 0%nat ≠ st_heap s !! 0%nat ∧
  let t := loaded_from undated in
  let t1 := (prepare example_parse no_epoch t).2 in
  (columns <$> (st_heap t !! 0%nat)) = Some ["title"; "journal"] ∧
  (columns <$> (st_heap t1 !! 0%nat)) = Some ["title"; "journal"; "year"] ∧
  st_heap t1 !! 0%nat ≠ st_heap t !! 0%nat.
Proof.
  cbv zeta. split_and!; try (vm_compute; reflexivity).
  - intros H.
    apply (f_equal (fmap (M := option) (column "publish_time"))) in H.
    vm_compute in H. discriminate H.
  - intros H. apply (f_equal (fmap (M := option) columns)) in H.
    vm_compute in H. discriminate H.
Qed.

Section DerivedViews.

Variable parse_datetime : string → option Timestamp.
Variable epoch_datetime : Z → option Timestamp.
Variable st_slider : Z → Z → Z * Z → result (Z * Z).

Abbreviation coerced := (setitem "publish_time"
  (λ r, to_datetime_coerce parse_datetime epoch_datetime (cell "publish_time" r))).
Abbreviation with_year := (setitem "year" (λ r, dt_year (cell "publish_time" r))).

(** C7, amended.  The preparation block changes the loaded DataFrame in
    place: with a [publish_time] column, that column of the loaded object is
    overwritten by the coerced dates, all its rows kept, and [df] is rebound
    to a new object without the rows whose date is null, to which the [year]
    column is added; without one, the [year] column is added to the loaded
    object.  No other object is touched.  The year-range filter changes no
    object and leaves [df] as it is. *)
Theorem derived_views_effects s l d :
  g_df s = PyRef l → st_heap s !! l = Some d →
  let s1 := (prepare parse_datetime epoch_datetime s).2 in
  let s2 := (year_filter st_slider s1).2 in
  (if bool_decide ("publish_time" ∈ columns d) then
     st_heap s1 !! l = Some (coerced d) ∧
     length (rows (coerced d)) = length (rows d) ∧
     g_df s1 = PyRef (length (st_heap s)) ∧
     deref s1 (g_df s1) = Some (with_year (dropna "publish_time" (coerced d)))
   else
     st_heap s1 !! l = Some (setitem "year" (λ _, SNum 2020) d) ∧
     g_df s1 = PyRef l) ∧
  (∀ l', l' ≠ l → (l' < length (st_heap s))%nat → st_heap s1 !! l' = st_heap s !! l') ∧
  (∀ l' d', st_heap s1 !! l' = Some d' → st_heap s2 !! l' = Some d') ∧
  g_df s2 = g_df s1.
Proof.
  intros Hdf Hl s1 s2.
  assert (l < length (st_heap s))%nat as Hlt by by eapply lookup_lt_Some.
  split_and!.
  - subst s1 s2. case_bool_decide as Hcol.
    + rewrite (prepare_with_dates parse_datetime epoch_datetime s l d) by done.
      cbn [snd st_heap g_df deref].
      split_and!.
      * rewrite lookup_app_l by (by rewrite length_insert).
        by apply list_lookup_insert_eq.
      * unfold setitem. cbn [rows]. by rewrite length_fmap.
      * done.
      * by rewrite list_lookup_middle by (by rewrite length_insert).
    + rewrite (prepare_without_dates parse_datetime epoch_datetime s l d) by done.
      cbn [snd st_heap g_df].
      split; [by apply list_lookup_insert_eq|done].
  - intros l' Hne Hlt'. subst s1 s2.
    destruct (decide ("publish_time" ∈ columns d)) as [Hcol|Hcol].
    + rewrite (prepare_with_dates parse_datetime epoch_datetime s l d) by done.
      cbn [snd st_heap].
      rewrite lookup_app_l by (by rewrite length_insert).
      by apply list_lookup_insert_ne.
    + rewrite (prepare_without_dates parse_datetime epoch_datetime s l d) by done.
      cbn [snd st_heap].
      by apply list_lookup_insert_ne.
  - intros l' d' Hl'. subst s2. destruct (year_filter_heap st_slider s1) as (tail & -> & _).
    by apply lookup_app_l_Some.
  - subst s2. by destruct (year_filter_heap st_slider s1) as (tail & _ & ->).
Qed.

(** C8.  When the DataFrame that [df] names has no [publish_time] column,
    the preparation block does not raise: [df] then names a frame with a
    [year] column, the same number of rows, and 2020 as the year of every
    row. *)
Theorem prepare_default_year s l d :
  g_df s = PyRef l → st_heap s !! l = Some d → "publish_time" ∉ columns d →
  let r := prepare parse_datetime epoch_datetime s in
  r.1 = Ok tt ∧
  ∃ d', deref r.2 (g_df r.2) = Some d' ∧
        "year" ∈ columns d' ∧
        length (rows d') = length (rows d) ∧
        ∀ row, row ∈ rows d' → cell "year" row = SNum 2020.
Proof.
  intros Hdf Hl Hcol r. subst r.
  rewrite (prepare_without_dates parse_datetime epoch_datetime s l d) by done.
  split; [done|]. exists (setitem "year" (λ _, SNum 2020) d).
  cbn [snd g_df deref st_heap].
  split_and!.
  - apply list_lookup_insert_eq. by eapply lookup_lt_Some.
  - unfold setitem. cbn [columns]. case_bool_decide; [done|].
    apply elem_of_app. right. by left.
  - unfold setitem. cbn [rows]. by rewrite length_fmap.
  - intros row (row0 & _ & ->)%cell_setitem. done.
Qed.

End DerivedViews.

(** C7 amended, at the loaded frame with an unparsable date. *)
Lemma derived_views_effects_witness :
  let s := loaded_from dated in
  let s1 := (prepare example_parse no_epoch s).2 in
  let s2 := (year_filter default_range s1).2 in
  g_df s = PyRef 0%nat ∧
  (column "publish_time" <$> (st_heap s !! 0%nat))
    = Some [SStr "2020-03-01"; SStr "not a date"; SStr "2021-07-15"] ∧
  g_df s1 = PyRef 1%nat ∧
  g_df s2 = PyRef 1%nat ∧
  st_heap s2 !! 0%nat = st_heap s1 !! 0%nat.
Proof.
  cbv zeta.
  split; [reflexivity|]. split; [reflexivity|].
  destruct (derived_views_effects example_parse no_epoch default_range (loaded_from dated) 0%nat
              (all_rows dated) eq_refl eq_refl) as (Hprep & _ & Hkeep & Hdf).
  destruct Hprep as (H0 & _ & H1 & _).
  split; [exact H1|]. split; [rewrite Hdf; exact H1|].
  rewrite H0. apply Hkeep. exact H0.
Defined.

(** C8, at the frame loaded from a source without dates. *)
Lemma prepare_default_year_witness :
  let s := loaded_from undated in
  g_df s = PyRef 0%nat ∧
  (columns <$> (st_heap s !! 0%nat)) = Some ["title"; "journal"] ∧
  ("publish_time" ∉ ["title"; "journal"]) ∧
  (prepare example_parse no_epoch s).1 = Ok tt ∧
  (column "year" <$> deref (prepare example_parse no_epoch s).2
                           (g_df (prepare example_parse no_epoch s).2))
    = Some [SNum 2020; SNum 2020].
Proof.
  cbv zeta.
  assert ("publish_time" ∉ ["title"; "journal"]) as Hcol.
  { intros Hin. repeat (apply elem_of_cons in Hin as [Hin|Hin]; [discriminate Hin|]).
    by apply elem_of_nil in Hin. }
  split; [reflexivity|]. split; [reflexivity|]. split; [exact Hcol|].
  destruct (prepare_default_year example_parse no_epoch (loaded_from undated) 0%nat
              (all_rows undated) eq_refl eq_refl Hcol) as (Hok & d' & Hd' & _ & _ & _).
  split; [exact Hok|]. vm_compute. reflexivity.
Defined.

(** C9, the code at a three-line [metadata.csv] in SampleSmall mode, loaded
    twice.  The read inside [load_sample_data] yields the three rows, but
    both calls return [None]: the first because [return df] raises
    [NameError], the second from the memo table, without reading the file.
    A run of the script stops with "Failed to load dataset", and so does a
    second run that starts with the memo table of the first: no DataFrame is
    yielded either time. *)
Lemma sample_load_twice_yields_no_frame :
  let fs := file_system three_rows Absent in
  (∃ d, read_csv_nrows fs "metadata.csv" 10000 = Ok d ∧ len d = 3) ∧
  let call1 := load_sample_data fs 10000 (init_state ∅) in
  let call2 := load_sample_data fs 10000 call1.2 in
  call1.1 = Ok PyNone ∧ call2.1 = Ok PyNone ∧
  st_heap call2.2 = [] ∧
  st_cache call1.2 !! 10000 = Some (None, [st_error (ErrorLoadingDataset NameError)]) ∧
  st_ui call2.2 = [st_error (ErrorLoadingDataset NameError);
                   st_error (ErrorLoadingDataset NameError)] ∧
  let run1 := load fs sample_small (init_state ∅) in
  let run2 := load fs sample_small (init_state (st_cache run1.2)) in
  run1.1 = Raise StopException ∧ run2.1 = Raise StopException ∧
  g_df run1.2 = PyNone ∧ g_df run2.2 = PyNone ∧
  st_heap run1.2 = [] ∧ st_heap run2.2 = [] ∧
  st_ui run2.2 = [st_error (ErrorLoadingDataset NameError);
                  st_error (Text "Failed to load dataset")].
Proof.
  split.
  - eexists. split; [vm_compute; reflexivity|reflexivity].
  - vm_compute. done.
Qed.

(** C10 fails at its own example, a source with a header and no data line:
    the iterator yields one chunk with no row for it, so the load succeeds
    with an empty DataFrame and "No data loaded" is not shown. *)
Lemma header_only_source_is_loaded :
  let fs := file_system Directory header_only in
  let r := load fs full (init_state ∅) in
  read_csv_chunks fs source chunk_size
    = Ok [Chunk (mkDataFrame ["title"; "publish_time"] [])] ∧
  r.1 = Ok tt ∧
  deref r.2 (g_df r.2) = Some (mkDataFrame ["title"; "publish_time"] []) ∧
  ¬ (st_error (Text "No data loaded") ∈ st_ui r.2).
Proof.
  cbv zeta. split; [reflexivity|]. split; [reflexivity|]. split; [reflexivity|].
  assert (st_ui (load (file_system Directory header_only) full (init_state ∅)).2
          = [st_progress 0; st_empty; progress_bar_progress (progress_value 0);
             status_text_text 0; progress_bar_empty; status_text_empty]) as ->
    by (vm_compute; reflexivity).
  intros Hin. repeat (apply elem_of_cons in Hin as [Hin|Hin]; [discriminate Hin|]).
  by apply elem_of_nil in Hin.
Qed.

(** C10, amended.  When the Full-mode iterator yields no chunk and raises
    nothing, the script shows "No data loaded" and stops: the [StopException]
    of [st.stop()] is not an [Exception], the handler does not run, the memo
    table and [df] are as before.  A source with a header and no data line is
    not such a case: its one empty chunk is loaded as an empty DataFrame, no
    error is shown and the script goes on. *)
Theorem full_load_no_chunk_stops fs s :
  full_mode fs (Ok []) s =
    (Raise StopException,
     shown s [st_progress 0; st_empty; st_error (Text "No data loaded")]) ∧
  (full_mode fs (Ok []);; check_loaded) s =
    (Raise StopException,
     shown s [st_progress 0; st_empty; st_error (Text "No data loaded")]) ∧
  ∀ header,
    fs source = Csv header [] →
    read_csv_chunks fs source chunk_size = Ok [Chunk (mkDataFrame header [])] ∧
    load fs full s =
      (Ok tt,
       mkState (st_ui s ++ [st_progress 0; st_empty;
                            progress_bar_progress (progress_value 0); status_text_text 0;
                            progress_bar_empty; status_text_empty])
         (st_cache s) (st_heap s ++ [mkDataFrame header []])
         (PyRef (length (st_heap s))) (g_filtered s)).
Proof.
  assert (full_mode fs (Ok []) s =
    (Raise StopException,
     shown s [st_progress 0; st_empty; st_error (Text "No data loaded")])) as H.
  { unfold full_mode, try_except. rewrite full_mode_try_Ok.
    unfold chunk_loop, mret, M_ret. cbn [is_Exception]. by rewrite shown_app. }
  split; [done|]. split; [unfold mbind, M_bind; by rewrite H|].
  intros header Hfs.
  assert (read_csv_chunks fs source chunk_size = Ok [Chunk (mkDataFrame header [])]) as Hread
    by (unfold read_csv_chunks; by rewrite Hfs).
  split; [done|].
  rewrite load_run, load_section_full, Hread.
  unfold full_mode, try_except. rewrite full_mode_try_Ok, chunk_loop_step. cbn zeta.
  change (len (mkDataFrame header [])) with 0.
  change (500000 <=? 0 + 0) with false. cbv iota.
  unfold chunk_loop, mret, M_ret. cbn [app].
  rewrite (check_loaded_ref _ (length (st_heap s))) by done.
  unfold shown. cbn. by rewrite <- !app_assoc.
Qed.

(** C10 amended, at the source with a header and no data line. *)
Lemma full_load_no_chunk_stops_witness :
  file_system Directory header_only source = header_only ∧
  (load (file_system Directory header_only) full (init_state ∅)).1 = Ok tt ∧
  st_heap (load (file_system Directory header_only) full (init_state ∅)).2
    = [mkDataFrame ["title"; "publish_time"] []].
Proof.
  destruct (full_load_no_chunk_stops (file_system Directory header_only) (init_state ∅))
    as (_ & _ & Hheader).
  destruct (Hheader ["title"; "publish_time"] eq_refl) as [_ Hload].
  split; [reflexivity|]. rewrite Hload. split; reflexivity.
Defined.

(** * Further properties *)

(** ** Facts about the example inputs *)

Lemma years_known_dated_years : years_known dated_years.
Proof.
  split.
  - unfold dated_years, setitem at 1. cbn [columns]. case_bool_decide; [done|].
    apply elem_of_app. right. by left.
  - apply Forall_forall. vm_compute. repeat constructor; eexists; reflexivity.
Qed.

Lemma dated_years_rows : rows dated_years ≠ [].
Proof. intros H. apply (f_equal length) in H. vm_compute in H. discriminate H. Qed.

(** ** The lines a Full-mode load reads *)

Lemma parse_rows_Ok_well_formed h ls rs :
  parse_rows h ls = Ok rs → well_formed_body h ls.
Proof.
  unfold parse_rows. destruct (forallb _ _) eqn:Hall; [|done]. intros _.
  unfold well_formed_body. apply Forall_forall. intros l Hl.
  rewrite forallb_forall in Hall. specialize (Hall l).
  unfold well_formed in Hall. eapply bool_decide_eq_true_1.
  apply Hall. by apply list_elem_of_In.
Qed.

Section ChunkLoopPrefix.

Variable header : list string.
Variable c : nat.
Hypothesis c_chunk_size : Z.of_nat c = chunk_size.

(** With enough fuel the chunks do not depend on the fuel. *)
Lemma iter_chunks_fuel : ∀ fuel1 fuel2 lines,
  (length lines ≤ fuel1)%nat → (length lines ≤ fuel2)%nat →
  iter_chunks fuel1 header c lines = iter_chunks fuel2 header c lines.
Proof.
  unfold chunk_size in *.
  induction fuel1 as [|fuel1 IH]; intros fuel2 lines H1 H2.
  - destruct lines; [|cbn in H1; lia]. by destruct fuel2.
  - destruct lines as [|line lines]; [by destruct fuel2|].
    destruct fuel2 as [|fuel2]; [cbn in H2; lia|].
    cbn [iter_chunks]. destruct (parse_rows _ _); [|done].
    f_equal. apply IH; rewrite length_drop; cbn in *; lia.
Qed.

(** The loop looks at no line past the one that brings [total_rows] to
    500,000. *)
Lemma chunk_loop_reads_prefix : ∀ fuel lines chunks total s,
  total ≤ 500000 →
  (lines ≠ [] → ∃ k, total = chunk_size * k ∧ total < 500000) →
  chunk_loop (iter_chunks fuel header c lines) chunks total s =
  chunk_loop (iter_chunks fuel header c (take (Z.to_nat (500000 - total)) lines))
    chunks total s.
Proof.
  unfold chunk_size in *.
  induction fuel as [|fuel IH]; intros lines chunks total s Hle Hinv; [done|].
  destruct lines as [|line lines]; [by rewrite take_nil|].
  destruct Hinv as (k & Hk & Hlt); [done|].
  set (lines0 := line :: lines) in *.
  set (n := Z.to_nat (500000 - total)).
  assert (c ≤ n)%nat as Hcn by lia.
  assert (take n lines0 ≠ []) as Hne.
  { subst lines0. destruct n as [|n']; [lia|done]. }
  cbn [iter_chunks].
  destruct (take n lines0) as [|line' lines'] eqn:Htake; [done|].
  rewrite <- Htake. clear Hne.
  subst lines0. cbn [iter_chunks].
  set (lines0 := line :: lines) in *.
  replace (take c (take n lines0)) with (take c lines0)
    by (rewrite take_take; f_equal; lia).
  destruct (parse_rows header (take c lines0)) as [rs|e] eqn:Hparse; [|done].
  apply parse_rows_Ok in Hparse.
  rewrite !chunk_loop_step. cbn zeta.
  assert (len (mkDataFrame header rs) = Z.of_nat (c `min` length lines0)) as Hlen
    by (unfold len; cbn [rows]; by rewrite Hparse, length_fmap, length_take).
  rewrite Hlen.
  destruct (Z.leb_spec 500000 (total + Z.of_nat (c `min` length lines0))) as [Hcap|Hcap];
    [done|].
  rewrite IH; [|lia|].
  - f_equal. f_equal.
    destruct (decide (length lines0 ≤ c)%nat) as [Hshort|Hlong].
    + by rewrite !drop_ge, !take_nil by (rewrite ?length_take; lia).
    + replace (Z.to_nat (500000 - (total + Z.of_nat (c `min` length lines0))))
        with (n - c)%nat by lia.
      rewrite take_drop_commute. do 2 f_equal. lia.
  - intros Hrest. exists (k + 1).
    assert (length (drop c lines0) ≠ 0)%nat as Hd
      by (destruct (drop c lines0); cbn; [done|lia]).
    rewrite length_drop in Hd. lia.
Qed.

(** A malformed line among those the loop looks at makes it raise. *)
Lemma chunk_loop_malformed : ∀ fuel lines chunks total s,
  (length lines ≤ fuel)%nat →
  total ≤ 500000 →
  (lines ≠ [] → ∃ k, total = chunk_size * k ∧ total < 500000) →
  ¬ well_formed_body header (take (Z.to_nat (500000 - total)) lines) →
  ∃ out, chunk_loop (iter_chunks fuel header c lines) chunks total s
         = (Raise ParserError, shown s out).
Proof.
  unfold chunk_size in *.
  induction fuel as [|fuel IH]; intros lines chunks total s Hfuel Hle Hinv Hbad.
  - destruct lines; [|cbn in Hfuel; lia]. rewrite take_nil in Hbad.
    destruct Hbad. constructor.
  - destruct lines as [|line lines].
    { rewrite take_nil in Hbad. destruct Hbad. constructor. }
    destruct Hinv as (k & Hk & Hlt); [done|].
    set (lines0 := line :: lines) in *.
    cbn [iter_chunks]. subst lines0. cbn [iter_chunks].
    set (lines0 := line :: lines) in *.
    destruct (parse_rows header (take c lines0)) as [rs|e] eqn:Hparse.
    + pose proof (parse_rows_Ok_well_formed _ _ _ Hparse) as Hwf.
      apply parse_rows_Ok in Hparse.
      rewrite chunk_loop_step. cbn zeta.
      assert (len (mkDataFrame header rs) = Z.of_nat (c `min` length lines0)) as Hlen
        by (unfold len; cbn [rows]; by rewrite Hparse, length_fmap, length_take).
      rewrite Hlen.
      destruct (Z.leb_spec 500000 (total + Z.of_nat (c `min` length lines0))) as [Hcap|Hcap].
      * destruct Hbad. replace (Z.to_nat (500000 - total)) with c by lia. done.
      * destruct (IH (drop c lines0) (chunks ++ [mkDataFrame header rs])
                    (total + Z.of_nat (c `min` length lines0))
                    (shown s [progress_bar_progress
                                (progress_value (total + Z.of_nat (c `min` length lines0)));
                              status_text_text (total + Z.of_nat (c `min` length lines0))]))
          as (out & Hrun).
        -- rewrite length_drop. subst lines0; cbn in *; lia.
        -- lia.
        -- intros Hrest. exists (k + 1).
           assert (length (drop c lines0) ≠ 0)%nat as Hd
             by (destruct (drop c lines0); cbn; [done|lia]).
           rewrite length_drop in Hd. lia.
        -- intros Hrest. apply Hbad.
           destruct (decide (length lines0 ≤ c)%nat) as [Hshort|Hlong].
           ++ rewrite take_ge by lia. by rewrite take_ge in Hwf by lia.
           ++ replace (Z.to_nat (500000 - total))
                with (c + Z.to_nat (500000 - (total + Z.of_nat (c `min` length lines0))))%nat
                by lia.
              rewrite <- take_take_drop. by apply Forall_app.
        -- eexists. by rewrite Hrun, shown_app.
    + apply parse_rows_Raise in Hparse as ->. exists [].
      by rewrite shown_nil.
Qed.

(** Every chunk but the last has [chunk_size] rows, so the loop takes at
    most ten turns. *)
Lemma chunk_loop_turns : ∀ fuel lines chunks total s,
  total ≤ 500000 →
  (lines ≠ [] → ∃ k, total = chunk_size * k ∧ total < 500000) →
  ∃ out, (chunk_loop (iter_chunks fuel header c lines) chunks total s).2 = shown s out ∧
         (lines = [] → out = []) ∧
         Z.of_nat (length (progress_values out)) * chunk_size ≤ 500000 - total.
Proof.
  unfold chunk_size in *.
  induction fuel as [|fuel IH]; intros lines chunks total s Hle Hinv.
  - exists []. cbn. rewrite shown_nil. split_and!; [done..|lia].
  - destruct lines as [|line lines].
    { exists []. cbn. rewrite shown_nil. split_and!; [done..|lia]. }
    destruct Hinv as (k & Hk & Hlt); [done|].
    set (lines0 := line :: lines) in *.
    cbn [iter_chunks]. subst lines0. cbn [iter_chunks].
    set (lines0 := line :: lines) in *.
    destruct (parse_rows header (take c lines0)) as [rs|e] eqn:Hparse.
    + apply parse_rows_Ok in Hparse.
      rewrite chunk_loop_step. cbn zeta.
      assert (len (mkDataFrame header rs) = Z.of_nat (c `min` length lines0)) as Hlen
        by (unfold len; cbn [rows]; by rewrite Hparse, length_fmap, length_take).
      rewrite Hlen.
      destruct (Z.leb_spec 500000 (total + Z.of_nat (c `min` length lines0))) as [Hcap|Hcap].
      * eexists. cbn [snd]. rewrite shown_app. split; [reflexivity|].
        split; [done|]. cbn. lia.
      * destruct (IH (drop c lines0) (chunks ++ [mkDataFrame header rs])
                    (total + Z.of_nat (c `min` length lines0))
                    (shown s [progress_bar_progress
                                (progress_value (total + Z.of_nat (c `min` length lines0)));
                              status_text_text (total + Z.of_nat (c `min` length lines0))]))
          as (out & Hrun & Hnil & Hcount).
        -- lia.
        -- intros Hrest. exists (k + 1).
           assert (length (drop c lines0) ≠ 0)%nat as Hd
             by (destruct (drop c lines0); cbn; [done|lia]).
           rewrite length_drop in Hd. lia.
        -- eexists. rewrite Hrun, shown_app. split; [reflexivity|].
           split; [done|].
           cbn [app progress_values omap list_omap length]. fold (progress_values out).
           destruct (decide (drop c lines0 = [])) as [Hrest|Hrest].
           ++ rewrite (Hnil Hrest). cbn. lia.
           ++ assert (length (drop c lines0) ≠ 0)%nat as Hd
                by (destruct (drop c lines0); cbn; [done|lia]).
              rewrite length_drop in Hd. lia.
    + exists []. cbn. rewrite shown_nil. split_and!; [done..|]. cbn. lia.
Qed.

End ChunkLoopPrefix.

Lemma read_csv_nrows_ext fs fs' path nrows :
  fs path = fs' path → read_csv_nrows fs path nrows = read_csv_nrows fs' path nrows.
Proof. intros H. unfold read_csv_nrows. by rewrite H. Qed.

Lemma fallback_ext fs fs' e :
  fs "metadata.csv" = fs' "metadata.csv" → fallback fs e = fallback fs' e.
Proof.
  intros H. unfold fallback, load_sample_data, load_sample_data_body.
  assert (read_csv_nrows fs "metadata.csv" = read_csv_nrows fs' "metadata.csv") as Hread.
  { unfold read_csv_nrows. by rewrite H. }
  by rewrite Hread.
Qed.

(** The chunk loop on two sources with the same first 500,000 data lines,
    index fields apart. *)
Lemma chunk_loop_source_prefix fs fs' header body body' s :
  fs source = Csv header body → fs' source = Csv header body' →
  take (Z.to_nat 500000) (data_lines header body)
    = take (Z.to_nat 500000) (data_lines header body') →
  ∃ it it',
    read_csv_chunks fs source chunk_size = Ok it ∧
    read_csv_chunks fs' source chunk_size = Ok it' ∧
    chunk_loop it [] 0 s = chunk_loop it' [] 0 s.
Proof.
  intros Hfs Hfs' Htake. unfold read_csv_chunks. rewrite Hfs, Hfs'.
  change (chunk_size <? 1) with false. cbv iota.
  eexists _, _. split; [reflexivity|]. split; [reflexivity|].
  assert (length body `min` Z.to_nat 500000 = length body' `min` Z.to_nat 500000)%nat
    as Hlen.
  { apply (f_equal length) in Htake.
    rewrite !length_take, !data_lines_length in Htake. lia. }
  destruct body as [|line body].
  { destruct body' as [|line' body']; [done|]. cbn [length] in Hlen. lia. }
  destruct body' as [|line' body'].
  { cbn [length] in Hlen. lia. }
  set (lines := line :: body) in *. set (lines' := line' :: body') in *.
  assert (Z.of_nat (Z.to_nat chunk_size) = chunk_size) as Hc by (unfold chunk_size; lia).
  rewrite (chunk_loop_reads_prefix header _ Hc (length lines) (data_lines header lines));
    [|lia|intros _; exists 0; unfold chunk_size; lia].
  rewrite (chunk_loop_reads_prefix header _ Hc (length lines') (data_lines header lines'));
    [|lia|intros _; exists 0; unfold chunk_size; lia].
  replace (500000 - 0) with 500000 by lia. rewrite <- Htake.
  f_equal. apply (iter_chunks_fuel header _ Hc).
  - rewrite length_take, data_lines_length. lia.
  - rewrite length_take, data_lines_length. lia.
Qed.

Lemma full_mode_source_prefix fs fs' header body body' s :
  fs source = Csv header body → fs' source = Csv header body' →
  fs "metadata.csv" = fs' "metadata.csv" →
  take (Z.to_nat 500000) (data_lines header body)
    = take (Z.to_nat 500000) (data_lines header body') →
  full_mode fs (read_csv_chunks fs source chunk_size) s =
  full_mode fs' (read_csv_chunks fs' source chunk_size) s.
Proof.
  intros Hfs Hfs' Hmeta Htake.
  destruct (chunk_loop_source_prefix fs fs' header body body'
              (shown s [st_progress 0; st_empty]) Hfs Hfs' Htake)
    as (it & it' & -> & -> & Hloop).
  unfold full_mode, try_except. rewrite !full_mode_try_Ok, Hloop.
  destruct (chunk_loop it' [] 0 _) as [[[[|d ds] total]|e] s1]; try reflexivity.
  destruct (is_Exception e); [|reflexivity].
  by rewrite (fallback_ext fs fs').
Qed.

(** X1.  A Full-mode load looks at no data line of the source past the
    500,000th.  Two file systems whose sources have the same header and the
    same first 500,000 data lines, and the same [metadata.csv] for the
    fallback, give the same load from the same state: the same result, the
    same messages, the same frames. *)
Theorem full_load_reads_first_lines_only fs fs' header body body' s :
  fs source = Csv header body → fs' source = Csv header body' →
  fs "metadata.csv" = fs' "metadata.csv" →
  take (Z.to_nat 500000) body = take (Z.to_nat 500000) body' →
  load fs full s = load fs' full s.
Proof.
  intros Hfs Hfs' Hmeta Htake. rewrite !load_run, !load_section_full.
  rewrite (full_mode_source_prefix fs fs' header body body'); [done..|].
  apply take_data_lines_eq; [lia|done].
Qed.

(** X1, at the three-line source and at a file system built around the same lines. *)
Lemma full_load_reads_first_lines_only_witness :
  load small_fs full (init_state ∅)
  = load (with_body (file_system Directory header_only) ["title"; "publish_time"]
            [[SStr "A"; SStr "2020-03-01"]; [SStr "B"; SStr "2021-07-15"]; [SStr "C"]])
      full (init_state ∅).
Proof.
  apply (full_load_reads_first_lines_only small_fs _ ["title"; "publish_time"]
           [[SStr "A"; SStr "2020-03-01"]; [SStr "B"; SStr "2021-07-15"]; [SStr "C"]]
           [[SStr "A"; SStr "2020-03-01"]; [SStr "B"; SStr "2021-07-15"]; [SStr "C"]]);
    reflexivity.
Defined.

Lemma take_take_same {A} n (l : list A) : take n (take n l) = take n l.
Proof. by rewrite take_take, Nat.min_id. Qed.

Lemma with_body_source fs header body :
  with_body fs header body source = Csv header body.
Proof. unfold with_body. rewrite decide_True; reflexivity. Qed.

Lemma with_body_metadata fs header body :
  with_body fs header body "metadata.csv" = fs "metadata.csv".
Proof. unfold with_body. rewrite decide_False; [reflexivity|discriminate]. Qed.

Lemma full_load_by_prefix fs c header body :
  cache_consistent fs c →
  fs source = Csv header body →
  let lines := take (Z.to_nat 500000) (data_lines header body) in
  let r := load fs full (init_state c) in
  (well_formed_body header lines →
   r.1 = Ok tt ∧
   deref r.2 (g_df r.2) = Some (mkDataFrame header (mk_row header <$> lines)) ∧
   (limit_warning ∈ st_ui r.2 ↔ 500000 ≤ Z.of_nat (length body))) ∧
  (¬ well_formed_body header lines →
   r.1 = Raise StopException ∧
   g_df r.2 = PyNone ∧ st_heap r.2 = [] ∧
   st_error (ErrorLoadingFullDataset ParserError) ∈ st_ui r.2 ∧
   last (st_ui r.2) = Some (st_error (Text "Failed to load dataset"))).
Proof.
  intros Hc Hfs lines r. split.
  - intros Hwf. subst r. rewrite load_run, load_section_full.
    rewrite (full_mode_source_prefix fs (with_body fs header lines) header body lines);
      [|exact Hfs|apply with_body_source|symmetry; apply with_body_metadata|].
    2:{ rewrite (data_lines_well_formed header lines Hwf). subst lines.
        by rewrite take_take_same. }
    destruct (full_mode_well_formed (with_body fs header lines) header lines (init_state c)
                (with_body_source _ _ _) Hwf)
      as (out & -> & _ & _ & Hwarn).
    rewrite (check_loaded_ref _ 0) by done.
    split_and!; [done| |].
    + cbn [snd g_df deref st_heap init_state app lookup list_lookup].
      subst lines. by rewrite take_take_same.
    + cbn [snd st_ui init_state]. rewrite app_nil_l, limit_warning_in_log, Hwarn.
      subst lines. rewrite length_take, data_lines_length. lia.
  - intros Hbad. subst r. rewrite load_run, load_section_full.
    unfold read_csv_chunks. rewrite Hfs. change (chunk_size <? 1) with false. cbv iota.
    destruct body as [|line body].
    { destruct Hbad. subst lines. unfold data_lines. rewrite fmap_nil, take_nil.
      constructor. }
    set (lines0 := line :: body) in *.
    destruct (chunk_loop_malformed header (Z.to_nat chunk_size)
                ltac:(unfold chunk_size; lia) (length lines0) (data_lines header lines0) [] 0
                (shown (init_state c) [st_progress 0; st_empty]))
      as (out & Hrun);
      [rewrite data_lines_length; lia|lia|intros _; exists 0; unfold chunk_size; lia| |].
    { by replace (500000 - 0) with 500000 by lia. }
    unfold full_mode, try_except. rewrite full_mode_try_Ok, Hrun. cbn [is_Exception].
    destruct (fallback_run fs ParserError
                (shown (shown (init_state c) [st_progress 0; st_empty]) out))
      as (c' & -> & _); [done..|].
    rewrite check_loaded_None by done. cbn [fst snd g_df st_heap shown st_ui init_state].
    split_and!; [done..| |].
    + rewrite app_nil_l. rewrite !elem_of_app. left. right. by left.
    + by rewrite last_snoc.
Qed.

(** X2.  The first 500,000 data lines of the source decide that a Full-mode
    load succeeds, whatever comes after them.  When none of them has more
    fields than the header (or, when the first data line has [k] more, none
    has more than [k] more: the first [k] fields of a line are then index
    values, which the load drops), the load succeeds, [df] names the frame
    of exactly these lines, and the limit warning is shown exactly when the
    source has 500,000 data lines or more. *)
Theorem full_load_of_well_formed_prefix fs c header body :
  cache_consistent fs c →
  fs source = Csv header body →
  let lines := take (Z.to_nat 500000) (data_lines header body) in
  well_formed_body header lines →
  let r := load fs full (init_state c) in
  r.1 = Ok tt ∧
  deref r.2 (g_df r.2) = Some (mkDataFrame header (mk_row header <$> lines)) ∧
  len (mkDataFrame header (mk_row header <$> lines))
    = Z.of_nat (length body) `min` 500000 ∧
  (limit_warning ∈ st_ui r.2 ↔ 500000 ≤ Z.of_nat (length body)).
Proof.
  intros Hc Hfs lines Hwf r.
  destruct (full_load_by_prefix fs c header body Hc Hfs) as [Hgood _].
  destruct (Hgood Hwf) as (Hok & Hdf & Hwarn).
  split_and!; [done|done| |done].
  unfold len. cbn [rows]. subst lines.
  rewrite length_fmap, length_take, data_lines_length. lia.
Qed.

(** X2, at a source whose first data line has one field more than the
    header: the load keeps both lines, without the index field. *)
Lemma full_load_of_well_formed_prefix_witness :
  let fs := file_system Directory indexed in
  cache_consistent fs ∅ ∧
  fs source = indexed ∧
  (load fs full (init_state ∅)).1 = Ok tt ∧
  (column "title" <$> deref (load fs full (init_state ∅)).2
                            (g_df (load fs full (init_state ∅)).2))
    = Some [SStr "B"; SNull] ∧
  limit_warning ∉ st_ui (load fs full (init_state ∅)).2.
Proof.
  cbv zeta. split; [apply cache_consistent_empty|]. split; [reflexivity|].
  assert (well_formed_body ["title"]
            (take (Z.to_nat 500000) (data_lines ["title"] [[SStr "A"; SStr "B"]; [SStr "C"]])))
    as Hwf.
  { apply Forall_take. repeat constructor. }
  destruct (full_load_of_well_formed_prefix (file_system Directory indexed) ∅ ["title"]
              [[SStr "A"; SStr "B"]; [SStr "C"]] (cache_consistent_empty _) eq_refl Hwf)
    as (Hok & _ & _ & Hwarn).
  split; [exact Hok|]. split; [reflexivity|].
  intros Hin. apply Hwarn in Hin. cbn in Hin. lia.
Defined.

(** ** What the Full branch shows *)

(** The calls a turn of the loop makes do not clear the progress widgets. *)
Lemma chunk_loop_events it : ∀ chunks total s,
  ∃ out, (chunk_loop it chunks total s).2 = shown s out ∧
         (progress_bar_empty ∉ out) ∧ (status_text_empty ∉ out).
Proof.
  induction it as [|[chunk|e] it IH]; intros chunks total s.
  - exists []. cbn. rewrite shown_nil. split_and!; [done|..]; by intros ?%elem_of_nil.
  - rewrite chunk_loop_step. cbn zeta. destruct (500000 <=? total + len chunk).
    + eexists. cbn [snd]. rewrite shown_app. split; [reflexivity|].
      split; intros Hin;
        repeat (apply elem_of_cons in Hin as [Hin|Hin]; [discriminate Hin|]);
        by apply elem_of_nil in Hin.
    + destruct (IH (chunks ++ [chunk]) (total + len chunk)
                  (shown s [progress_bar_progress (progress_value (total + len chunk));
                            status_text_text (total + len chunk)]))
        as (out & -> & H1 & H2).
      eexists. rewrite shown_app. split; [reflexivity|].
      split; intros Hin;
        repeat (apply elem_of_cons in Hin as [Hin|Hin]; [discriminate Hin|]); done.
  - exists []. cbn. rewrite shown_nil. split_and!; [done|..]; by intros ?%elem_of_nil.
Qed.

(** What the Full branch shows, and what [df] is afterwards. *)
Lemma full_mode_events fs reader s :
  cache_consistent fs (st_cache s) → g_df s = Unbound → raises_Exceptions reader →
  ∃ out tail,
    st_ui (full_mode fs reader s).2 = st_ui s ++ [st_progress 0; st_empty] ++ out ++ tail ∧
    match reader with
    | Ok it => (chunk_loop it [] 0 (shown s [st_progress 0; st_empty])).2
               = shown (shown s [st_progress 0; st_empty]) out
    | Raise _ => out = []
    end ∧
    ((tail = [progress_bar_empty; status_text_empty] ∧
      ∃ l, g_df (full_mode fs reader s).2 = PyRef l) ∨
     (tail = [st_error (Text "No data loaded")] ∧
      g_df (full_mode fs reader s).2 = Unbound) ∨
     (∃ e, tail = [st_error (ErrorLoadingFullDataset e);
                   st_info (Text "Falling back to sample data...");
                   st_error (ErrorLoadingDataset (sample_error fs 10000))]) ∧
      g_df (full_mode fs reader s).2 = PyNone).
Proof.
  intros Hc Hdf Hexc. unfold full_mode, try_except.
  destruct reader as [it|e].
  - rewrite full_mode_try_Ok.
    destruct (chunk_loop_events it [] 0 (shown s [st_progress 0; st_empty]))
      as (out & Hs & _).
    destruct (chunk_loop it [] 0 _) as [[[chunks total]|e] s1] eqn:Hloop;
      cbn [fst snd] in *; subst s1.
    + destruct chunks as [|d ds].
      * exists out, [st_error (Text "No data loaded")]. cbn [is_Exception snd].
        split_and!; [|done|].
        -- cbn. by rewrite <- !app_assoc.
        -- right; left. by cbn.
      * exists out, [progress_bar_empty; status_text_empty]. cbn [snd].
        split_and!; [|done|].
        -- cbn. by rewrite <- !app_assoc.
        -- left. split; [done|]. by eexists.
    + apply chunk_loop_Raise, Hexc in Hloop. rewrite Hloop.
      destruct (fallback_run fs e (shown (shown s [st_progress 0; st_empty]) out))
        as (c' & Hrun & Hc'); [done..|].
      rewrite Hrun. eexists out, _. cbn [snd st_ui g_df shown].
      split_and!; [|done|].
      -- by rewrite <- !app_assoc.
      -- right; right. split; [by eexists|done].
  - rewrite full_mode_try_Raise. cbn in Hexc. rewrite Hexc.
    destruct (fallback_run fs e (shown s [st_progress 0; st_empty]))
      as (c' & Hrun & Hc'); [done..|].
    rewrite Hrun. eexists [], _. cbn [snd st_ui g_df shown].
    split_and!; [|done|].
    -- by rewrite <- !app_assoc.
    -- right; right. split; [by eexists|done].
Qed.

(** X3.  The Full branch goes through its loop at most ten times: the
    progress bar is set at most ten times, whatever the source holds. *)
Theorem full_load_reads_at_most_ten_chunks fs c :
  cache_consistent fs c →
  (length (progress_values (st_ui (load_section fs full (init_state c)).2)) ≤ 10)%nat.
Proof.
  intros Hc. rewrite load_section_full.
  destruct (full_mode_events fs (read_csv_chunks fs source chunk_size) (init_state c))
    as (out & tail & -> & Hout & Htail);
    [done|done|apply read_csv_chunks_raises_Exceptions|].
  assert (progress_values tail = []) as Hpv
    by (destruct Htail as [[-> _]|[[-> _]|[[e ->] _]]]; reflexivity).
  cbn [st_ui init_state]. rewrite app_nil_l, progress_values_log by done.
  revert Hout. unfold read_csv_chunks. change (chunk_size <? 1) with false. cbv iota.
  destruct (fs source) as [| | |header body]; try (intros ->; cbn; lia).
  destruct body as [|line body].
  - rewrite chunk_loop_step. cbn zeta. change (len (mkDataFrame header [])) with 0.
    change (500000 <=? 0 + 0) with false. cbv iota.
    unfold chunk_loop, mret, M_ret. cbn [snd]. intros Hout.
    apply shown_inj in Hout. subst out. cbn. lia.
  - set (lines := line :: body) in *. intros Hout.
    destruct (chunk_loop_turns header (Z.to_nat chunk_size)
                ltac:(unfold chunk_size; lia) (length lines) (data_lines header lines) [] 0
                (shown (init_state c) [st_progress 0; st_empty]))
      as (out' & Hs & _ & Hcount); [lia|intros _; exists 0; unfold chunk_size; lia|].
    rewrite Hs in Hout. apply shown_inj in Hout as ->.
    unfold chunk_size in Hcount. lia.
Qed.

(** X3, at the three-line source. *)
Lemma full_load_reads_at_most_ten_chunks_witness :
  cache_consistent small_fs ∅ ∧
  (length (progress_values (st_ui (load_section small_fs full (init_state ∅)).2)) ≤ 10)%nat.
Proof.
  split; [apply cache_consistent_empty|].
  apply full_load_reads_at_most_ten_chunks, cache_consistent_empty.
Defined.

(** X4.  The progress bar and the status text are cleared exactly when
    the Full branch ends with [df] naming a DataFrame: when the read fails or
    no chunk comes, both are left on the page. *)
Theorem full_load_clears_progress_iff_loaded fs c :
  cache_consistent fs c →
  let s' := (load_section fs full (init_state c)).2 in
  (progress_bar_empty ∈ st_ui s' ↔ ∃ l, g_df s' = PyRef l) ∧
  (status_text_empty ∈ st_ui s' ↔ ∃ l, g_df s' = PyRef l).
Proof.
  intros Hc s'. subst s'. rewrite load_section_full.
  destruct (full_mode_events fs (read_csv_chunks fs source chunk_size) (init_state c))
    as (out & tail & -> & Hout & Htail);
    [done|done|apply read_csv_chunks_raises_Exceptions|].
  assert ((progress_bar_empty ∉ out) ∧ (status_text_empty ∉ out)) as [Hpb Hst].
  { destruct (read_csv_chunks fs source chunk_size) as [it|e].
    - destruct (chunk_loop_events it [] 0 (shown (init_state c) [st_progress 0; st_empty]))
        as (out' & Hs & H1 & H2).
      rewrite Hs in Hout. by apply shown_inj in Hout as ->.
    - subst out. split; by intros ?%elem_of_nil. }
  cbn [st_ui init_state]. rewrite app_nil_l.
  destruct Htail as [[-> [l Hl]]|[[-> Hdf]|[[e ->] Hdf]]]; rewrite ?Hdf.
  - split; (split; [by eauto|]); intros _; rewrite !elem_of_app; right; right.
    + by left.
    + right. by left.
  - split; (split; [|by intros [l [=]]]); intros Hin; exfalso;
      rewrite !elem_of_app in Hin; destruct Hin as [Hin|[Hin|Hin]]; try done;
      repeat (apply elem_of_cons in Hin as [Hin|Hin]; [discriminate Hin|]);
      by apply elem_of_nil in Hin.
  - split; (split; [|by intros [l [=]]]); intros Hin; exfalso;
      rewrite !elem_of_app in Hin; destruct Hin as [Hin|[Hin|Hin]]; try done;
      repeat (apply elem_of_cons in Hin as [Hin|Hin]; [discriminate Hin|]);
      by apply elem_of_nil in Hin.
Qed.

(** X4, at the three-line source. *)
Lemma full_load_clears_progress_iff_loaded_witness :
  cache_consistent small_fs ∅ ∧
  g_df (load_section small_fs full (init_state ∅)).2 = PyRef 0%nat ∧
  progress_bar_empty ∈ st_ui (load_section small_fs full (init_state ∅)).2.
Proof.
  split; [apply cache_consistent_empty|]. split; [reflexivity|].
  apply (proj1 (full_load_clears_progress_iff_loaded small_fs ∅ (cache_consistent_empty _))).
  exists 0%nat. reflexivity.
Defined.

(** ** [load_sample_data] and its memo table *)

(** X5.  A call of [load_sample_data], from any state: it returns (it
    never raises) [None] or a DataFrame, rebinds neither [df] nor [filtered],
    only adds to what is shown, adds at most one object and changes no
    existing one, keeps every entry of the memo table and leaves one for its
    argument. *)
Theorem load_sample_data_frame fs nrows s :
  let r := load_sample_data fs nrows s in
  (∃ v, r.1 = Ok v ∧ v ≠ Unbound) ∧
  g_df r.2 = g_df s ∧ g_filtered r.2 = g_filtered s ∧
  (∃ out, st_ui r.2 = st_ui s ++ out) ∧
  (∃ new, st_heap r.2 = st_heap s ++ new ∧ (length new ≤ 1)%nat) ∧
  (∀ key entry, st_cache s !! key = Some entry → st_cache r.2 !! key = Some entry) ∧
  is_Some (st_cache r.2 !! nrows).
Proof.
  intros r. subst r. unfold load_sample_data.
  destruct (st_cache s !! nrows) as [[[d|] out]|] eqn:Hentry.
  - rewrite (cache_data_hit_frame _ _ s d out Hentry).
    cbn [fst snd st_cache st_ui st_heap g_df g_filtered shown].
    split_and!;
      [by eexists|done|done|by eexists| |done|by rewrite Hentry].
    exists [d]. split; [done|]. cbn. lia.
  - rewrite (cache_data_hit_None _ _ s out Hentry).
    cbn [fst snd st_cache st_ui st_heap g_df g_filtered shown].
    split_and!;
      [by eexists|done|done|by eexists| |done|by rewrite Hentry].
    exists []. rewrite app_nil_r. split; [done|]. cbn. lia.
  - destruct (load_sample_data_body_run fs nrows s) as (v & tail & Hbody & Hv).
    rewrite (cache_data_miss _ _ s v _ Hentry Hbody).
    cbn [fst snd st_cache st_ui st_heap g_df g_filtered shown].
    split_and!; [|done|done|by eexists| | |].
    + exists v. split; [done|]. by destruct Hv as [->|[l ->]].
    + exists []. rewrite app_nil_r. split; [done|]. cbn. lia.
    + intros key entry Hkey. rewrite lookup_insert_ne; [done|]. congruence.
    + rewrite lookup_insert_eq. by eexists.
Qed.

(** X6.  The memo table of [load_sample_data] is keyed by the argument
    alone: a second call with the same argument returns the value of the
    first and shows the same messages again, even when the files have
    changed in between. *)
Theorem load_sample_data_memo_outlives_file fs fs' nrows s :
  let r1 := load_sample_data fs nrows s in
  let r2 := load_sample_data fs' nrows r1.2 in
  ∃ v1 v2 out,
    r1.1 = Ok v1 ∧ r2.1 = Ok v2 ∧
    deref r1.2 v1 = deref r2.2 v2 ∧
    st_ui r1.2 = st_ui s ++ out ∧ st_ui r2.2 = st_ui r1.2 ++ out.
Proof.
  intros r1 r2. subst r1 r2. unfold load_sample_data.
  destruct (st_cache s !! nrows) as [[[d|] out]|] eqn:Hentry.
  - rewrite (cache_data_hit_frame _ _ s d out Hentry). cbn [fst snd].
    erewrite cache_data_hit_frame by exact Hentry.
    eexists _, _, out. cbn [fst snd deref st_heap st_ui].
    split_and!; try done. cbn [deref st_heap]. by rewrite !list_lookup_middle.
  - rewrite (cache_data_hit_None _ _ s out Hentry). cbn [fst snd].
    erewrite cache_data_hit_None by exact Hentry. by exists PyNone, PyNone, out.
  - destruct (load_sample_data_body_run fs nrows s) as (v & tail & Hbody & Hv).
    rewrite (cache_data_miss _ _ s v _ Hentry Hbody). cbn [fst snd].
    assert (drop (length (st_ui s)) (st_ui (shown s tail)) = tail) as Htail
      by (cbn; by rewrite drop_app_length).
    rewrite Htail.
    destruct (deref (shown s tail) v) as [d|] eqn:Hderef.
    + erewrite cache_data_hit_frame by (cbn [st_cache]; apply lookup_insert_eq).
      eexists _, _, tail. cbn [fst snd st_heap shown st_ui].
      split_and!; try done.
      destruct Hv as [->|[l ->]]; [done|]. cbn in Hderef.
      cbn [deref st_heap]. by rewrite Hderef, list_lookup_middle.
    + erewrite cache_data_hit_None by (cbn [st_cache]; apply lookup_insert_eq).
      eexists _, _, tail. cbn [fst snd shown st_ui].
      split_and!; try done;
        destruct Hv as [->|[l ->]]; try done; cbn in *; by rewrite Hderef.
Qed.

(** ** [get_dataset_info] and the sidebar *)

(** X7.  [get_dataset_info] never raises and memoises what it returns.  It
    returns [(None, None)] exactly when the size of the source cannot be
    taken or the source is not a CSV file with a header; otherwise the size
    in GB and the labels of the header, whatever the data lines are.  The
    sidebar then shows the size and the number of columns, unless the size
    is 0. *)
Theorem get_dataset_info_result fs getsize :
  (∃ info, get_dataset_info fs getsize None = Ok (info, Some info)) ∧
  (get_dataset_info fs getsize None = Ok (None, Some None) ↔
     getsize source = None ∨ ∀ header body, fs source ≠ Csv header body) ∧
  (∀ bytes header body,
     getsize source = Some bytes → fs source = Csv header body →
     get_dataset_info fs getsize None
       = Ok (Some ((bytes # 1073741824)%Q, header),
             Some (Some ((bytes # 1073741824)%Q, header))) ∧
     sidebar (Some ((bytes # 1073741824)%Q, header))
       = if decide (bytes = 0) then []
         else [sidebar_dataset_size (bytes # 1073741824);
               sidebar_columns (Z.of_nat (length header))]).
Proof.
  unfold get_dataset_info, get_dataset_info_body, read_csv_nrows.
  change (0 <? 0) with false. cbv iota zeta. fold source.
  split_and!.
  - destruct (getsize source) as [bytes|]; [|by eexists].
    destruct (fs source) as [| | |header body]; by eexists.
  - destruct (getsize source) as [bytes|]; [|by split; [left|]].
    destruct (fs source) as [| | |header body]; cbn.
    + split; [by right|done].
    + split; [by right|done].
    + split; [by right|done].
    + split; [done|]. intros [?|H]; [done|]. by destruct (H header body).
  - intros bytes header body -> ->. unfold parse_rows. cbn. split; [done|].
    unfold Qeq_bool. cbn. rewrite Z.mul_1_r. change (0 * 1073741824) with 0.
    destruct (decide (bytes = 0)) as [->|Hne]; [done|].
    destruct (Z.eqb_spec bytes 0); done.
Qed.

(** X7, at the three-line source of 2 GiB. *)
Lemma get_dataset_info_result_witness :
  example_getsize source = Some 2147483648 ∧
  small_fs source = three_rows ∧
  get_dataset_info small_fs example_getsize None
    = Ok (Some ((2147483648 # 1073741824)%Q, ["title"; "publish_time"]),
          Some (Some ((2147483648 # 1073741824)%Q, ["title"; "publish_time"]))) ∧
  sidebar (Some ((2147483648 # 1073741824)%Q, ["title"; "publish_time"]))
    = [sidebar_dataset_size (2147483648 # 1073741824); sidebar_columns 2].
Proof.
  destruct (get_dataset_info_result small_fs example_getsize) as (_ & _ & H).
  destruct (H 2147483648 ["title"; "publish_time"]
              [[SStr "A"; SStr "2020-03-01"]; [SStr "B"; SStr "2021-07-15"]; [SStr "C"]]
              eq_refl eq_refl) as [Hinfo Hside].
  split; [reflexivity|]. split; [reflexivity|]. split; [exact Hinfo|exact Hside].
Defined.

(** X8.  The columns the sidebar counts are those of the frame a Full-mode
    load leaves in [df]: when [get_dataset_info] returns labels and the load
    succeeds on the same files, the loaded frame has exactly these columns. *)
Theorem sidebar_columns_match_loaded fs getsize c info d :
  cache_consistent fs c →
  get_dataset_info fs getsize None = Ok (Some info, Some (Some info)) →
  deref (load fs full (init_state c)).2 (g_df (load fs full (init_state c)).2) = Some d →
  columns d = info.2 ∧
  sidebar (Some info) =
    (if Qeq_bool info.1 0 then []
     else [sidebar_dataset_size info.1; sidebar_columns (Z.of_nat (length (columns d)))]).
Proof.
  intros Hc Hinfo Hd.
  assert (∃ header body, fs source = Csv header body ∧ info.2 = header)
    as (header & body & Hfs & Hcols).
  { revert Hinfo. unfold get_dataset_info, get_dataset_info_body, read_csv_nrows.
    change (0 <? 0) with false. cbv iota zeta. fold source.
    destruct (getsize source) as [bytes|]; [|done].
    destruct (fs source) as [| | |header body]; try done.
    unfold parse_rows. cbn. intros [= <-]. by exists header, body. }
  destruct (full_load_by_prefix fs c header body Hc Hfs) as [Hgood Hbad].
  assert (columns d = info.2) as Hd'.
  { destruct (decide (well_formed_body header
                        (take (Z.to_nat 500000) (data_lines header body)))) as [Hwf|Hwf].
    - destruct (Hgood Hwf) as (_ & Hdf & _). rewrite Hdf in Hd.
      injection Hd as <-. by rewrite Hcols.
    - destruct (Hbad Hwf) as (_ & Hdf & _). by rewrite Hdf in Hd. }
  split; [done|]. rewrite Hd'. by destruct info.
Qed.

(** X8, at the three-line source. *)
Lemma sidebar_columns_match_loaded_witness :
  cache_consistent small_fs ∅ ∧
  columns (all_rows three_rows) = ["title"; "publish_time"] ∧
  sidebar (Some ((2147483648 # 1073741824)%Q, ["title"; "publish_time"]))
    = [sidebar_dataset_size (2147483648 # 1073741824); sidebar_columns 2].
Proof.
  split; [apply cache_consistent_empty|].
  exact (sidebar_columns_match_loaded small_fs example_getsize ∅
           ((2147483648 # 1073741824)%Q, ["title"; "publish_time"]) (all_rows three_rows)
           (cache_consistent_empty _) eq_refl eq_refl).
Defined.

(** ** The preparation block and the year-range filter *)

Lemma foldr_min_spec (ys : list Z) (y0 : Z) :
  foldr Z.min y0 ys ∈ y0 :: ys ∧ foldr Z.min y0 ys ≤ y0 ∧
  ∀ y, y ∈ ys → foldr Z.min y0 ys ≤ y.
Proof.
  induction ys as [|y1 ys (Hin & Hle & Hall)]; cbn [foldr].
  - split; [by left|]. split; [lia|]. by intros y ?%elem_of_nil.
  - split_and!.
    + destruct (Z.min_spec y1 (foldr Z.min y0 ys)) as [[_ ->]|[_ ->]].
      * right. by left.
      * apply elem_of_cons in Hin as [->|Hin]; [by left|]. right. by right.
    + lia.
    + intros y [->|Hy]%elem_of_cons; [lia|]. specialize (Hall y Hy). lia.
Qed.

Lemma foldr_max_spec (ys : list Z) (y0 : Z) :
  foldr Z.max y0 ys ∈ y0 :: ys ∧ y0 ≤ foldr Z.max y0 ys ∧
  ∀ y, y ∈ ys → y ≤ foldr Z.max y0 ys.
Proof.
  induction ys as [|y1 ys (Hin & Hle & Hall)]; cbn [foldr].
  - split; [by left|]. split; [lia|]. by intros y ?%elem_of_nil.
  - split_and!.
    + destruct (Z.max_spec y1 (foldr Z.max y0 ys)) as [[_ ->]|[_ ->]].
      * apply elem_of_cons in Hin as [->|Hin]; [by left|]. right. by right.
      * right. by left.
    + lia.
    + intros y [->|Hy]%elem_of_cons; [lia|]. specialize (Hall y Hy). lia.
Qed.

Lemma hd_elem_of (ys : list Z) : ys ≠ [] → hd 0 ys ∈ ys.
Proof. destruct ys; [done|]. intros _. by left. Qed.

Lemma numbers_elem_of c d y :
  y ∈ numbers c d ↔ ∃ row, row ∈ rows d ∧ cell c row = SNum y.
Proof.
  unfold numbers. rewrite list_elem_of_omap. split.
  - intros (row & Hrow & Hy). exists row. split; [done|].
    destruct (cell c row); congruence.
  - intros (row & Hrow & Hy). exists row. split; [done|]. by rewrite Hy.
Qed.

Lemma all_isna_years_known d :
  years_known d → all_isna "year" d = bool_decide (rows d = []).
Proof.
  intros [_ Hnum]. unfold all_isna. destruct (rows d) as [|row rs] eqn:Hrows; [done|].
  rewrite bool_decide_eq_false_2 by done. cbn [forallb].
  destruct (Hnum row) as [y ->]; [by left|]. done.
Qed.

Lemma filter_fmap_nil {A B} (P : B → bool) (g : A → B) (l : list A) :
  filter (λ x, P x) (g <$> l) = [] ↔ ∀ x, x ∈ l → P (g x) = false.
Proof.
  induction l as [|a l IH]; cbn [fmap list_fmap].
  - split; [by intros _ x ?%elem_of_nil|done].
  - rewrite filter_cons. destruct (decide (P (g a))) as [Ha|Ha].
    + split; [done|].
      intros Hall. specialize (Hall a ltac:(by left)). by rewrite Hall in Ha.
    + apply Is_true_false_1 in Ha. rewrite IH. split.
      * intros Hall x [->|Hx]%elem_of_cons; [done|by apply Hall].
      * intros Hall x Hx. apply Hall. by right.
Qed.

Section FilterFacts.

Variable parse_datetime : string → option Timestamp.
Variable epoch_datetime : Z → option Timestamp.
Variable st_slider : Z → Z → Z * Z → result (Z * Z).

Lemma prepare_years_known_run s l d :
  g_df s = PyRef l → st_heap s !! l = Some d →
  let r := prepare parse_datetime epoch_datetime s in
  r.1 = Ok tt ∧
  ∃ l' d', g_df r.2 = PyRef l' ∧ st_heap r.2 !! l' = Some d' ∧
    years_known d' ∧
    (length (rows d') ≤ length (rows d))%nat ∧
    (∀ c, c ∈ columns d → c ∈ columns d') ∧
    (length (st_heap s) ≤ length (st_heap r.2) ≤ length (st_heap s) + 1)%nat ∧
    g_filtered r.2 = g_filtered s ∧ st_cache r.2 = st_cache s ∧
    (∀ row, row ∈ rows d' → "publish_time" ∈ columns d →
       ∃ t, cell "publish_time" row = SDate t ∧ cell "year" row = SNum (ts_year t)) ∧
    (rows d' = [] ↔
     ∀ row, row ∈ rows d →
       "publish_time" ∈ columns d ∧
       to_datetime_coerce parse_datetime epoch_datetime (cell "publish_time" row) = SNull).
Proof.
  intros Hdf Hl r. subst r.
  assert (l < length (st_heap s))%nat as Hlt by by eapply lookup_lt_Some.
  destruct (decide ("publish_time" ∈ columns d)) as [Hcol|Hcol].
  - rewrite (prepare_with_dates parse_datetime epoch_datetime s l d) by done.
    split; [done|]. eexists _, _. cbn [snd g_df st_heap g_filtered st_cache].
    assert (∀ row,
      row ∈ rows (setitem "year" (λ r, dt_year (cell "publish_time" r))
                    (dropna "publish_time"
                       (setitem "publish_time"
                          (λ r, to_datetime_coerce parse_datetime epoch_datetime
                                  (cell "publish_time" r)) d))) →
      ∃ t, cell "publish_time" row = SDate t ∧ cell "year" row = SNum (ts_year t)) as Hrows.
    { unfold setitem at 1. cbn [rows]. intros row (row0 & -> & Hrow0)%list_elem_of_fmap.
      unfold dropna, select in Hrow0. cbn [rows] in Hrow0.
      apply list_elem_of_filter in Hrow0 as [Hdate Hrow0].
      apply cell_setitem in Hrow0 as (row1 & _ & Hcell).
      unfold cell at 1 3. rewrite lookup_insert_ne by done. rewrite lookup_insert_eq.
      fold (cell "publish_time" row0). cbn [default].
      assert (∃ t, cell "publish_time" row0 = SDate t) as [t Ht].
      { rewrite Hcell in Hdate |- *. unfold to_datetime_coerce in *.
        destruct (cell "publish_time" row1) as [x|n|t|];
          [destruct (parse_datetime x)|destruct (epoch_datetime n)|..];
          try done; by eexists. }
      exists t. by rewrite Ht. }
    split_and!.
    + done.
    + by apply list_lookup_middle; rewrite length_insert.
    + split.
      * unfold setitem at 1. cbn [columns]. case_bool_decide; [done|].
        apply elem_of_app. right. by left.
      * intros row (t & _ & ->)%Hrows. by eexists.
    + unfold setitem, dropna, select. cbn [rows]. rewrite length_fmap.
      etrans; [apply length_filter|]. by rewrite length_fmap.
    + intros c Hc. unfold setitem, dropna, select. cbn [columns].
      rewrite (bool_decide_eq_true_2 ("publish_time" ∈ columns d)) by done.
      case_bool_decide; [done|]. apply elem_of_app. by left.
    + rewrite length_app, length_insert. cbn. lia.
    + rewrite length_app, length_insert. cbn. lia.
    + done.
    + done.
    + intros row Hrow _. by apply Hrows.
    + unfold setitem at 1, dropna, select. cbn [rows]. split.
      * intros Hnil%fmap_nil_inv. unfold setitem in Hnil. cbn [rows] in Hnil.
        intros row Hrow. split; [done|].
        pose proof (proj1 (filter_fmap_nil (λ r, negb (isna (cell "publish_time" r))) _ _)
                      Hnil row Hrow) as Hna.
        cbv beta in Hna. unfold cell at 1 in Hna. rewrite lookup_insert_eq in Hna.
        cbn [default] in Hna.
        by destruct (to_datetime_coerce _ _ _).
      * intros Hall. unfold setitem. cbn [rows].
        rewrite (proj2 (filter_fmap_nil (λ r, negb (isna (cell "publish_time" r))) _ _));
          [done|].
        intros row Hrow. cbv beta. unfold cell at 1. rewrite lookup_insert_eq.
        cbn [default]. by rewrite (proj2 (Hall row Hrow)).
  - rewrite (prepare_without_dates parse_datetime epoch_datetime s l d) by done.
    split; [done|]. eexists _, _. cbn [snd g_df st_heap g_filtered st_cache].
    split_and!.
    + done.
    + by apply list_lookup_insert_eq.
    + split.
      * unfold setitem. cbn [columns]. case_bool_decide; [done|].
        apply elem_of_app. right. by left.
      * intros row (row0 & _ & ->)%cell_setitem. by eexists.
    + unfold setitem. cbn [rows]. by rewrite length_fmap.
    + intros c Hc. unfold setitem. cbn [columns]. case_bool_decide; [done|].
      apply elem_of_app. by left.
    + rewrite length_insert. lia.
    + rewrite length_insert. lia.
    + done.
    + done.
    + done.
    + unfold setitem. cbn [rows]. split.
      * intros ->%fmap_nil_inv. by intros row ?%elem_of_nil.
      * intros Hall. destruct (rows d) as [|row rs]; [done|].
        by destruct (Hall row ltac:(by left)).
Qed.

Lemma year_filter_run s l d :
  g_df s = PyRef l → st_heap s !! l = Some d → years_known d →
  (rows d = [] →
     year_filter st_slider s =
       (Ok tt, mkState (st_ui s ++ [no_year_data]) (st_cache s) (st_heap s)
                 (PyRef l) (PyRef l))) ∧
  (rows d ≠ [] →
     ∃ min_year max_year,
       min_year ∈ numbers "year" d ∧ max_year ∈ numbers "year" d ∧
       (∀ y, y ∈ numbers "year" d → min_year ≤ y ≤ max_year) ∧
       year_filter st_slider s =
         match st_slider min_year max_year (2020, 2021) with
         | Ok year_range =>
             (Ok tt,
              mkState (st_ui s) (st_cache s)
                (st_heap s ++ [select (between "year" year_range.1 year_range.2) d])
                (PyRef l) (PyRef (length (st_heap s))))
         | Raise e => (Raise e, s)
         end).
Proof.
  intros Hdf Hl Hknown.
  assert (year_filter st_slider s =
    if bool_decide (rows d = []) then
      (Ok tt, mkState (st_ui s ++ [no_year_data]) (st_cache s) (st_heap s)
                (PyRef l) (PyRef l))
    else
      match st_slider (foldr Z.min (hd 0 (numbers "year" d)) (numbers "year" d))
              (foldr Z.max (hd 0 (numbers "year" d)) (numbers "year" d)) (2020, 2021) with
      | Ok year_range =>
          (Ok tt,
           mkState (st_ui s) (st_cache s)
             (st_heap s ++ [select (between "year" year_range.1 year_range.2) d])
             (PyRef l) (PyRef (length (st_heap s))))
      | Raise e => (Raise e, s)
      end) as Hrun.
  { unfold year_filter. unfold mbind at 1, M_bind at 1, get_df at 1. rewrite Hdf.
    unfold mbind at 1, M_bind at 1. rewrite (frame_of_ref _ _ _ Hl).
    rewrite (bool_decide_eq_true_2 ("year" ∈ columns d)) by apply Hknown.
    rewrite (all_isna_years_known d Hknown). cbn [andb].
    case_bool_decide as Hrows; cbn [negb].
    - unfold mbind, M_bind, set_filtered, emit, shown. cbn. by rewrite Hdf.
    - unfold mbind, M_bind, lift. destruct (st_slider _ _ _) as [year_range|e]; [|done].
      unfold alloc, set_filtered. cbn. by rewrite Hdf. }
  split.
  - intros Hrows. rewrite Hrun. by rewrite bool_decide_eq_true_2.
  - intros Hrows. rewrite bool_decide_eq_false_2 in Hrun by done.
    assert (numbers "year" d ≠ []) as Hne.
    { destruct (rows d) as [|row rs] eqn:Hd; [done|].
      destruct Hknown as [_ Hnum]. destruct (Hnum row) as [y Hy]; [rewrite Hd; by left|].
      intros Hnil. assert (y ∈ numbers "year" d) as Hin.
      { apply numbers_elem_of. exists row. split; [rewrite Hd; by left|done]. }
      rewrite Hnil in Hin. by apply elem_of_nil in Hin. }
    pose proof (hd_elem_of _ Hne) as Hhd.
    destruct (foldr_min_spec (numbers "year" d) (hd 0 (numbers "year" d)))
      as (Hmin_in & _ & Hmin).
    destruct (foldr_max_spec (numbers "year" d) (hd 0 (numbers "year" d)))
      as (Hmax_in & _ & Hmax).
    eexists _, _. split_and!; [| |intros y Hy; split; [by apply Hmin|by apply Hmax]|exact Hrun].
    + apply elem_of_cons in Hmin_in as [->|?]; done.
    + apply elem_of_cons in Hmax_in as [->|?]; done.
Qed.

Lemma select_between_rows d lo hi row :
  row ∈ rows (select (between "year" lo hi) d) ↔
  row ∈ rows d ∧ ∃ y, cell "year" row = SNum y ∧ lo ≤ y ≤ hi.
Proof.
  unfold select. cbn [rows]. rewrite list_elem_of_filter. unfold between. split.
  - intros [Hkeep Hrow]. split; [done|].
    destruct (cell "year" row) as [x|y|t|]; try done. exists y. split; [done|].
    apply Is_true_true, andb_true_iff in Hkeep. lia.
  - intros [Hrow (y & -> & Hy)]. split; [|done].
    apply Is_true_true, andb_true_iff. lia.
Qed.

Lemma select_between_all d lo hi :
  (∀ row, row ∈ rows d → ∃ y, cell "year" row = SNum y ∧ lo ≤ y ≤ hi) →
  select (between "year" lo hi) d = d.
Proof.
  intros Hall. unfold select. destruct d as [cols rs]. cbn [columns rows] in *. f_equal.
  induction rs as [|row rs IH]; [done|].
  rewrite filter_cons. destruct (Hall row) as (y & Hy & Hrange); [by left|].
  rewrite decide_True.
  - f_equal. apply IH. intros row' Hrow'. apply Hall. by right.
  - unfold between. rewrite Hy. apply Is_true_true, andb_true_iff. lia.
Qed.

(** X10.  The year-range filter on a frame with rows, whose years are all
    numbers: the slider is offered the least and the greatest year of the
    frame.  When the slider call raises, the exception leaves the script with
    the state as it was.  Otherwise [filtered] names a new frame with the
    columns of [df] and exactly the rows of [df], in their order, whose year
    is within the selected range; [df], what is shown and the existing
    objects are unchanged; a range that covers all the years keeps every
    row. *)
Theorem year_filter_selects_range s l d :
  g_df s = PyRef l → st_heap s !! l = Some d → years_known d → rows d ≠ [] →
  ∃ min_year max_year,
    min_year ∈ numbers "year" d ∧ max_year ∈ numbers "year" d ∧
    (∀ y, y ∈ numbers "year" d → min_year ≤ y ≤ max_year) ∧
    let r := year_filter st_slider s in
    match st_slider min_year max_year (2020, 2021) with
    | Raise e => r = (Raise e, s)
    | Ok (lo, hi) =>
        r.1 = Ok tt ∧
        g_df r.2 = g_df s ∧ st_ui r.2 = st_ui s ∧
        g_filtered r.2 = PyRef (length (st_heap s)) ∧
        (∀ l' d', st_heap s !! l' = Some d' → st_heap r.2 !! l' = Some d') ∧
        ∃ f, deref r.2 (g_filtered r.2) = Some f ∧
             columns f = columns d ∧
             rows f = filter (λ row, between "year" lo hi row) (rows d) ∧
             (∀ row, row ∈ rows f ↔
                row ∈ rows d ∧ ∃ y, cell "year" row = SNum y ∧ lo ≤ y ≤ hi) ∧
             (lo ≤ min_year → max_year ≤ hi → f = d)
    end.
Proof.
  intros Hdf Hl Hknown Hrows.
  destruct (year_filter_run s l d Hdf Hl Hknown) as [_ Hrun].
  destruct (Hrun Hrows) as (min_year & max_year & Hmin & Hmax & Hall & ->).
  exists min_year, max_year. split_and!; [done..|]. cbv zeta.
  destruct (st_slider min_year max_year (2020, 2021)) as [[lo hi]|e]; [|done].
  cbn [fst snd g_df st_ui g_filtered st_heap deref].
  split_and!; [done|by rewrite Hdf|done|done| |].
  - intros l' d' Hl'. by apply lookup_app_l_Some.
  - exists (select (between "year" lo hi) d). split_and!.
    + by apply list_lookup_middle.
    + done.
    + done.
    + intros row. apply select_between_rows.
    + intros Hlo Hhi. apply select_between_all. intros row Hrow.
      destruct Hknown as [_ Hnum]. destruct (Hnum row Hrow) as [y Hy].
      exists y. split; [done|].
      assert (y ∈ numbers "year" d) as Hin by (apply numbers_elem_of; by exists row).
      specialize (Hall y Hin). lia.
Qed.

End FilterFacts.

(** X10, at the prepared frame of the dated source, the slider left at its default. *)
Lemma year_filter_selects_range_witness :
  g_df prepared_dated = PyRef 1%nat ∧
  st_heap prepared_dated !! 1%nat = Some dated_years ∧
  ∃ min_year max_year,
    min_year ∈ numbers "year" dated_years ∧ max_year ∈ numbers "year" dated_years ∧
    (year_filter default_range prepared_dated).1 = Ok tt ∧
    g_filtered (year_filter default_range prepared_dated).2 = PyRef 2%nat.
Proof.
  split; [reflexivity|]. split; [reflexivity|].
  destruct (year_filter_selects_range default_range prepared_dated 1%nat dated_years
              eq_refl eq_refl years_known_dated_years dated_years_rows)
    as (min_year & max_year & Hmin & Hmax & _ & Hrun).
  exists min_year, max_year. split; [exact Hmin|]. split; [exact Hmax|].
  destruct Hrun as (Hok & _ & _ & Hfil & _). split; [exact Hok|exact Hfil].
Defined.


Section Pipeline.

Variable parse_datetime : string → option Timestamp.
Variable epoch_datetime : Z → option Timestamp.
Variable st_slider : Z → Z → Z * Z → result (Z * Z).


(** X11.  After the preparation block the filter is skipped exactly when
    the loaded frame has no row at all, or has a [publish_time] column and no
    row with a date that pandas can read.  Then "No year data available for
    filtering" is shown and [filtered] is the object [df] names, not a copy.
    Otherwise nothing is shown and a filter that returns binds [filtered] to
    a new object. *)
Theorem filter_skipped_iff_no_dated_row s l d :
  g_df s = PyRef l → st_heap s !! l = Some d →
  let s1 := (prepare parse_datetime epoch_datetime s).2 in
  let r := year_filter st_slider s1 in
  let no_dated_row :=
    ∀ row, row ∈ rows d →
      "publish_time" ∈ columns d ∧
      to_datetime_coerce parse_datetime epoch_datetime (cell "publish_time" row) = SNull in
  (no_dated_row →
     r.1 = Ok tt ∧ st_ui r.2 = st_ui s1 ++ [no_year_data] ∧
     g_filtered r.2 = g_df r.2 ∧ g_df r.2 = g_df s1 ∧ st_heap r.2 = st_heap s1) ∧
  (¬ no_dated_row →
     st_ui r.2 = st_ui s1 ∧
     (r.1 = Ok tt → g_filtered r.2 = PyRef (length (st_heap s1)) ∧
                    g_filtered r.2 ≠ g_df r.2)).
Proof.
  intros Hdf Hl s1 r no_dated_row. subst s1 r.
  destruct (prepare_years_known_run parse_datetime epoch_datetime s l d Hdf Hl)
    as (_ & l' & d' & Hdf' & Hl' & Hknown & _ & _ & _ & _ & _ & _ & Hnil).
  destruct (year_filter_run st_slider _ l' d' Hdf' Hl' Hknown) as [Hempty Hrows].
  split.
  - intros Hno. rewrite Hempty by by apply Hnil. cbn. by rewrite Hdf'.
  - intros Hno. destruct Hrows as (mn & mx & _ & _ & _ & ->).
    { intros Hd'. apply Hno. unfold no_dated_row. by apply Hnil. }
    destruct (st_slider mn mx (2020, 2021)) as [year_range|e]; cbn; [|done].
    split; [done|]. intros _. split; [done|]. intros [= Heq].
    apply lookup_lt_Some in Hl'. lia.
Qed.


End Pipeline.


(** X11, at the dated source, whose first row has a date. *)
Lemma filter_skipped_iff_no_dated_row_witness :
  g_df (loaded_from dated) = PyRef 0%nat ∧
  st_heap (loaded_from dated) !! 0%nat = Some (all_rows dated) ∧
  to_datetime_coerce example_parse no_epoch
    (cell "publish_time" (mk_row ["title"; "publish_time"] [SStr "A"; SStr "2020-03-01"]))
    = SDate (mkTimestamp 2020 3 1) ∧
  st_ui (year_filter default_range prepared_dated).2 = st_ui prepared_dated.
Proof.
  split; [reflexivity|]. split; [reflexivity|]. split; [reflexivity|].
  destruct (filter_skipped_iff_no_dated_row example_parse no_epoch default_range
              (loaded_from dated) 0%nat (all_rows dated) eq_refl eq_refl) as [_ Hrows].
  apply Hrows. intros Hno.
  destruct (Hno (mk_row ["title"; "publish_time"] [SStr "A"; SStr "2020-03-01"]))
    as [_ Hnull]; [by left|].
  vm_compute in Hnull. discriminate Hnull.
Defined.


(** ** The chart of the years *)

Lemma count_sum (keys values : list Z) :
  NoDup keys → (∀ y, y ∈ values → y ∈ keys) →
  foldr Z.add 0 ((λ y, Z.of_nat (length (filter (λ y', y' = y) values))) <$> keys)
    = Z.of_nat (length values).
Proof.
  intros Hnd. induction values as [|v values IH]; intros Hin.
  - clear. induction keys as [|k keys IH]; [done|].
    cbn [fmap list_fmap foldr]. rewrite IH. done.
  - assert (∀ ks, NoDup ks →
      foldr Z.add 0 ((λ y, Z.of_nat (length (filter (λ y', y' = y) (v :: values)))) <$> ks)
      = foldr Z.add 0 ((λ y, Z.of_nat (length (filter (λ y', y' = y) values))) <$> ks)
        + (if bool_decide (v ∈ ks) then 1 else 0)) as Hstep.
    { clear. induction ks as [|k ks IH]; intros Hnd; [done|].
      apply NoDup_cons in Hnd as [Hk Hnd]. cbn [fmap list_fmap foldr].
      rewrite IH by done. rewrite filter_cons.
      destruct (decide (v = k)) as [->|Hne].
      - rewrite (bool_decide_eq_true_2 (k ∈ k :: ks)) by by left.
        rewrite (bool_decide_eq_false_2 (k ∈ ks)) by done.
        cbn [length]. lia.
      - case_bool_decide as H1; case_bool_decide as H2; try lia.
        + exfalso. apply H2. by right.
        + exfalso. apply elem_of_cons in H2 as [?|?]; done. }
    rewrite Hstep by done. rewrite IH.
    + rewrite bool_decide_eq_true_2 by (apply Hin; by left). cbn [length]. lia.
    + intros y Hy. apply Hin. by right.
Qed.

Lemma Sorted_le_NoDup_lt (l : list Z) : Sorted Z.le l → NoDup l → StronglySorted Z.lt l.
Proof.
  intros Hs%Sorted_StronglySorted Hnd; [|apply _].
  induction Hs as [|x l Hs IH Hall]; [constructor|].
  apply NoDup_cons in Hnd as [Hx Hnd]. constructor; [by apply IH|].
  apply Forall_forall. intros y Hy. rewrite Forall_forall in Hall.
  specialize (Hall y Hy). assert (x ≠ y) by (intros ->; done). lia.
Qed.

Lemma numbers_filter_length c d y :
  length (filter (λ y', y' = y) (numbers c d))
  = length (filter (λ row, cell c row = SNum y) (rows d)).
Proof.
  unfold numbers. induction (rows d) as [|row rs IH]; [done|].
  cbn [omap list_omap]. rewrite (filter_cons (λ row, _ = _)).
  destruct (cell c row) as [x|n|t|] eqn:Hcell; cbn [omap list_omap].
  - rewrite decide_False by done. apply IH.
  - rewrite filter_cons. destruct (decide (n = y)) as [->|Hne].
    + rewrite decide_True by done. cbn [length]. by rewrite IH.
    + rewrite decide_False by congruence. apply IH.
  - rewrite decide_False by done. apply IH.
  - rewrite decide_False by done. apply IH.
Qed.

Lemma value_counts_sort_index_spec c d :
  let bars := value_counts_sort_index c d in
  StronglySorted Z.lt (bars.*1) ∧
  (∀ y, y ∈ bars.*1 ↔ ∃ row, row ∈ rows d ∧ cell c row = SNum y) ∧
  (∀ y n, (y, n) ∈ bars →
     0 < n ∧ n = Z.of_nat (length (filter (λ row, cell c row = SNum y) (rows d)))) ∧
  bar_total bars = Z.of_nat (length (numbers c d)).
Proof.
  cbv zeta. unfold value_counts_sort_index.
  set (values := numbers c d). set (keys := merge_sort Z.le (remove_dups values)).
  assert (keys ≡ₚ remove_dups values) as Hperm by apply merge_sort_Permutation.
  assert (NoDup keys) as Hnd by (rewrite Hperm; apply NoDup_remove_dups).
  assert (∀ y, y ∈ keys ↔ y ∈ values) as Hkeys
    by (intros y; rewrite Hperm; apply elem_of_remove_dups).
  assert (∀ l : list Z,
    ((λ y, (y, Z.of_nat (length (filter (λ y', y' = y) values)))) <$> l).*1 = l) as Hfst.
  { intros l. rewrite <- list_fmap_compose. apply list_fmap_id. }
  split_and!.
  - rewrite Hfst. apply Sorted_le_NoDup_lt; [apply Sorted_merge_sort, _|done].
  - intros y. rewrite Hfst, Hkeys. apply numbers_elem_of.
  - intros y n (y' & [= -> ->] & Hy)%list_elem_of_fmap.
    subst values. rewrite numbers_filter_length. split; [|done].
    apply Hkeys, numbers_elem_of in Hy as (row & Hrow & Hcell).
    assert (row ∈ filter (λ row, cell c row = SNum y') (rows d)) as Hin
      by by apply list_elem_of_filter.
    destruct (filter _ (rows d)); [by apply elem_of_nil in Hin|cbn; lia].
  - unfold bar_total. rewrite <- list_fmap_compose.
    apply count_sum; [done|]. intros y. apply Hkeys.
Qed.

Lemma numbers_length_years_known d :
  years_known d → length (numbers "year" d) = length (rows d).
Proof.
  intros [_ Hnum]. unfold numbers. induction (rows d) as [|row rs IH]; [done|].
  cbn [omap list_omap]. destruct (Hnum row) as [y ->]; [by left|].
  cbn [length]. f_equal. apply IH. intros row' Hrow'. apply Hnum. by right.
Qed.

Lemma publications_by_year_run s l f :
  g_filtered s = PyRef l → st_heap s !! l = Some f → years_known f →
  publications_by_year s =
    (Ok (if bool_decide (rows f = [])
         then chart_info (Text "No year data available for chart")
         else st_bar_chart (value_counts_sort_index "year" f)), s).
Proof.
  intros Hfil Hl Hknown. unfold publications_by_year.
  unfold mbind at 1, M_bind at 1, get_filtered at 1. rewrite Hfil.
  unfold mbind at 1, M_bind at 1. rewrite (frame_of_ref _ _ _ Hl).
  rewrite (bool_decide_eq_true_2 ("year" ∈ columns f)) by apply Hknown.
  rewrite (all_isna_years_known f Hknown). cbn [andb].
  by case_bool_decide.
Qed.

(** X13.  The "Publications by Year" chart of a frame whose years are all
    numbers changes no state.  Without rows it is the message "No year data
    available for chart".  Otherwise it has one bar for each year that occurs,
    the years strictly ascending, each bar counting the rows of that year, and
    the bars add up to the number of rows of [filtered]. *)
Theorem publications_by_year_counts_every_row s l f :
  g_filtered s = PyRef l → st_heap s !! l = Some f → years_known f →
  let r := publications_by_year s in
  r.2 = s ∧
  (rows f = [] → r.1 = Ok (chart_info (Text "No year data available for chart"))) ∧
  (rows f ≠ [] →
   ∃ bars, r.1 = Ok (st_bar_chart bars) ∧
     StronglySorted Z.lt (bars.*1) ∧
     (∀ y, y ∈ bars.*1 ↔ rows_of_year y f ≠ []) ∧
     (∀ y n, (y, n) ∈ bars → 0 < n ∧ n = Z.of_nat (length (rows_of_year y f))) ∧
     bar_total bars = len f).
Proof.
  intros Hfil Hl Hknown r. subst r. rewrite (publications_by_year_run s l f) by done.
  cbn [fst snd]. split; [done|]. split.
  - intros Hrows. by rewrite bool_decide_eq_true_2.
  - intros Hrows. rewrite bool_decide_eq_false_2 by done.
    destruct (value_counts_sort_index_spec "year" f) as (Hsorted & Hkeys & Hcount & Htotal).
    eexists. split; [done|]. split_and!.
    + done.
    + intros y. rewrite Hkeys. unfold rows_of_year. split.
      * intros (row & Hrow & Hcell) Hnil.
        assert (row ∈ filter (λ row, cell "year" row = SNum y) (rows f)) as Hin
          by by apply list_elem_of_filter.
        rewrite Hnil in Hin. by apply elem_of_nil in Hin.
      * intros Hne. destruct (filter _ (rows f)) as [|row rs] eqn:Hf; [done|].
        assert (row ∈ filter (λ row, cell "year" row = SNum y) (rows f)) as Hin
          by (rewrite Hf; by left).
        apply list_elem_of_filter in Hin as [Hcell Hrow]. by exists row.
    + done.
    + rewrite Htotal. unfold len. by rewrite numbers_length_years_known.
Qed.

Section ChartAfterFilter.

Variable st_slider : Z → Z → Z * Z → result (Z * Z).

Lemma years_known_select keep d : years_known d → years_known (select keep d).
Proof.
  intros [Hcol Hnum]. split; [done|]. unfold select. cbn [rows].
  intros row [_ Hrow]%list_elem_of_filter. by apply Hnum.
Qed.

Lemma rows_of_year_select lo hi y d :
  rows_of_year y (select (between "year" lo hi) d)
  = if bool_decide (lo ≤ y ≤ hi) then rows_of_year y d else [].
Proof.
  unfold rows_of_year, select. cbn [rows].
  induction (rows d) as [|row rs IH]; [by case_bool_decide|].
  rewrite (filter_cons (λ row, Is_true (between "year" lo hi row))).
  rewrite (filter_cons (λ row, cell "year" row = SNum y) row rs).
  destruct (decide (cell "year" row = SNum y)) as [Hy|Hy].
  - assert (between "year" lo hi row = bool_decide (lo ≤ y ≤ hi)) as Hb.
    { unfold between. rewrite Hy.
      destruct (Z.leb_spec lo y), (Z.leb_spec y hi); case_bool_decide; cbn; try done; lia. }
    destruct (decide (between "year" lo hi row)) as [Hk|Hk]; rewrite Hb in Hk.
    + rewrite filter_cons, decide_True by done. rewrite IH.
      by case_bool_decide.
    + rewrite IH. by case_bool_decide.
  - destruct (decide _).
    + rewrite filter_cons, decide_False by done. apply IH.
    + apply IH.
Qed.

(** X14.  The filter and then the chart: when the slider returns the range
    [lo] to [hi], the chart has a bar exactly for the years of [df] within the
    range, each counting all the rows of [df] with that year, the bars add up
    to the number of rows selected, and when no row is selected the chart is
    the message "No year data available for chart". *)
Theorem chart_shows_the_selected_years s l d :
  g_df s = PyRef l → st_heap s !! l = Some d → years_known d → rows d ≠ [] →
  ∃ min_year max_year,
    (∀ y, y ∈ numbers "year" d → min_year ≤ y ≤ max_year) ∧
    ∀ lo hi,
      st_slider min_year max_year (2020, 2021) = Ok (lo, hi) →
      let r := (year_filter st_slider;; publications_by_year) s in
      let selected := filter (λ row, between "year" lo hi row) (rows d) in
      (selected = [] →
         r.1 = Ok (chart_info (Text "No year data available for chart"))) ∧
      (selected ≠ [] →
       ∃ bars, r.1 = Ok (st_bar_chart bars) ∧
         StronglySorted Z.lt (bars.*1) ∧
         (∀ y, y ∈ bars.*1 ↔ lo ≤ y ≤ hi ∧ rows_of_year y d ≠ []) ∧
         (∀ y n, (y, n) ∈ bars →
            lo ≤ y ≤ hi ∧ min_year ≤ y ≤ max_year ∧
            n = Z.of_nat (length (rows_of_year y d))) ∧
         bar_total bars = Z.of_nat (length selected)).
Proof.
  intros Hdf Hl Hknown Hrows.
  destruct (year_filter_run st_slider s l d Hdf Hl Hknown) as [_ Hrun].
  destruct (Hrun Hrows) as (min_year & max_year & _ & _ & Hall & Hfilter).
  exists min_year, max_year. split; [done|]. intros lo hi Hslider r selected.
  rewrite Hslider in Hfilter. cbn [fst snd] in Hfilter.
  set (f := select (between "year" lo hi) d) in *.
  assert (years_known f) as Hf by by apply years_known_select.
  subst r. unfold mbind, M_bind. rewrite Hfilter.
  rewrite (publications_by_year_run _ (length (st_heap s)) f);
    [|done|by apply list_lookup_middle|done].
  cbn [fst]. split.
  - intros Hsel. by rewrite bool_decide_eq_true_2 by exact Hsel.
  - intros Hsel. rewrite bool_decide_eq_false_2 by exact Hsel.
    destruct (value_counts_sort_index_spec "year" f) as (Hsorted & Hkeys & Hcount & Htotal).
    eexists. split; [done|]. split_and!.
    + done.
    + intros y. rewrite Hkeys. subst f. split.
      * intros (row & Hrow & Hcell).
        apply select_between_rows in Hrow as [Hrow (y' & Hcell' & Hrange)].
        assert (y' = y) as -> by congruence. split; [done|].
        unfold rows_of_year. intros Hnil.
        assert (row ∈ filter (λ row, cell "year" row = SNum y) (rows d)) as Hin
          by by apply list_elem_of_filter.
        rewrite Hnil in Hin. by apply elem_of_nil in Hin.
      * intros [Hrange Hne].
        destruct (rows_of_year y d) as [|row rs] eqn:Hfd; [done|].
        assert (row ∈ rows_of_year y d) as Hin by (rewrite Hfd; by left).
        apply list_elem_of_filter in Hin as [Hcell Hrow]. exists row. split; [|done].
        apply select_between_rows. split; [done|]. by exists y.
    + intros y n Hbar. destruct (Hcount y n Hbar) as [Hpos ->].
      fold (rows_of_year y f) in *. subst f. rewrite rows_of_year_select in *.
      case_bool_decide as Hrange; [|cbn in Hpos; lia].
      split; [done|]. split; [|done]. apply Hall, numbers_elem_of.
      destruct (rows_of_year y d) as [|row rs] eqn:Hry; [cbn in Hpos; lia|].
      assert (row ∈ rows_of_year y d) as Hin by (rewrite Hry; by left).
      apply list_elem_of_filter in Hin as [Hcell Hrow]. by exists row.
    + rewrite Htotal. by rewrite numbers_length_years_known.
Qed.

End ChartAfterFilter.

(** X13, at the two rows the default range keeps of the dated source. *)
Lemma publications_by_year_counts_every_row_witness :
  g_filtered filtered_dated = PyRef 2%nat ∧
  st_heap filtered_dated !! 2%nat = Some (select (between "year" 2020 2021) dated_years) ∧
  years_known (select (between "year" 2020 2021) dated_years) ∧
  ∃ bars, (publications_by_year filtered_dated).1 = Ok (st_bar_chart bars) ∧
          bar_total bars = 2.
Proof.
  assert (years_known (select (between "year" 2020 2021) dated_years)) as Hknown.
  { split; [exact (proj1 years_known_dated_years)|].
    apply Forall_forall. vm_compute. repeat constructor; eexists; reflexivity. }
  split; [reflexivity|]. split; [reflexivity|]. split; [exact Hknown|].
  destruct (publications_by_year_counts_every_row filtered_dated 2%nat
              (select (between "year" 2020 2021) dated_years) eq_refl eq_refl Hknown)
    as (_ & _ & Hbars).
  destruct Hbars as (bars & Hrun & _ & _ & _ & Htotal).
  { intros H. apply (f_equal length) in H. vm_compute in H. discriminate H. }
  exists bars. split; [exact Hrun|exact Htotal].
Defined.

(** X14, at the dated source with the slider moved to 2021. *)
Lemma chart_shows_the_selected_years_witness :
  g_df prepared_dated = PyRef 1%nat ∧
  st_heap prepared_dated !! 1%nat = Some dated_years ∧
  ∃ bars,
    ((year_filter only_2021;; publications_by_year) prepared_dated).1
      = Ok (st_bar_chart bars) ∧
    bar_total bars = 1 ∧
    ∀ y n, (y, n) ∈ bars → 2021 ≤ y ≤ 2021.
Proof.
  split; [reflexivity|]. split; [reflexivity|].
  destruct (chart_shows_the_selected_years only_2021 prepared_dated 1%nat dated_years
              eq_refl eq_refl years_known_dated_years dated_years_rows)
    as (min_year & max_year & _ & Hchart).
  destruct (Hchart 2021 2021 eq_refl) as [_ Hbars].
  destruct Hbars as (bars & Hrun & _ & _ & Hcount & Htotal).
  { intros H. apply (f_equal length) in H. vm_compute in H. discriminate H. }
  exists bars. split; [exact Hrun|]. split; [exact Htotal|].
  intros y n Hbar. exact (proj1 (Hcount y n Hbar)).
Defined.

(** ** The column information table *)

Section ColumnInformationFacts.

Variable dtype_name : DataFrame → string → string.
Variable index_memory : DataFrame → Z.
Variable column_memory : DataFrame → string → Z.

Lemma same_length_id n values : length values = n → same_length n values = values.
Proof. intros H. unfold same_length. by rewrite decide_False by (intros ?; done). Qed.

Lemma same_length_length n values : length (same_length n values) = n.
Proof.
  unfold same_length. repeat case_decide.
  - rewrite length_take. lia.
  - rewrite length_app, length_replicate. lia.
  - lia.
Qed.

Lemma counts_partition c (rs : list (gmap string scalar)) :
  (length (filter (λ row, negb (isna (cell c row))) rs)
   + length (filter (λ row, isna (cell c row)) rs))%nat = length rs.
Proof.
  induction rs as [|row rs IH]; [done|].
  rewrite !filter_cons. cbv beta.
  destruct (isna (cell c row)); cbn [negb].
  - rewrite (decide_False (P := Is_true false)) by (intros []).
    rewrite (decide_True (P := Is_true true)) by exact I. cbn [length]. lia.
  - rewrite (decide_True (P := Is_true true)) by exact I.
    rewrite (decide_False (P := Is_true false)) by (intros []). cbn [length]. lia.
Qed.

Lemma memory_list_length d :
  length ((λ bytes, VFloat (bytes # 1024)) <$> memory_usage index_memory column_memory d)
  = S (length (columns d)).
Proof. unfold memory_usage. cbn. by rewrite !length_fmap. Qed.

Lemma column_information_run d :
  column_information dtype_name index_memory column_memory d =
    Ok (st_dataframe
          [("Column", VStr <$> columns d);
           ("Data Type", (λ c, VStr (dtype_name d c)) <$> columns d);
           ("Non-Null Count", VInt <$> df_count d);
           ("Null Count", VInt <$> isnull_sum d);
           ("Memory Usage (KB)",
            take (length (columns d))
              ((λ bytes, VFloat (bytes # 1024)) <$> memory_usage index_memory column_memory d))]).
Proof.
  set (n := length (columns d)).
  assert (length (df_count d) = n) as Hcount by (unfold df_count; by rewrite length_fmap).
  assert (length (isnull_sum d) = n) as Hnull by (unfold isnull_sum; by rewrite length_fmap).
  pose proof (memory_list_length d) as Hmem. fold n in Hmem.
  unfold column_information, col_info_data. fold n. cbn [fmap list_fmap fst snd].
  rewrite !same_length_id by (by rewrite !length_fmap).
  assert (same_length n
            ((λ bytes, VFloat (bytes # 1024)) <$> memory_usage index_memory column_memory d)
          = take n
              ((λ bytes, VFloat (bytes # 1024)) <$> memory_usage index_memory column_memory d))
    as ->.
  { unfold same_length. rewrite Hmem.
    rewrite decide_True by lia. by rewrite decide_True by lia. }
  unfold pd_DataFrame. cbn [forallb snd].
  rewrite !length_fmap, Hcount, Hnull, length_take, Hmem. fold n.
  rewrite Nat.eqb_refl. replace (n `min` S n)%nat with n by lia.
  by rewrite Nat.eqb_refl.
Qed.

(** X15.  The column information table is always built, the handler never
    runs: the table has the five labelled lists, each with one value for each
    column of [df]; for every column, the non-null count and the null count
    are not negative and add up to the number of rows.  The loop before the
    construction is what makes it possible: the dictionary as first built is
    always ragged, and [pd.DataFrame] on it would raise [ValueError]. *)
Theorem column_information_table d :
  ∃ col_info,
    column_information dtype_name index_memory column_memory d = Ok (st_dataframe col_info) ∧
    col_info.*1 = ["Column"; "Data Type"; "Non-Null Count"; "Null Count"; "Memory Usage (KB)"] ∧
    (∀ item, item ∈ col_info → length item.2 = length (columns d)) ∧
    (∀ i c, columns d !! i = Some c →
       ∃ non_null null,
         (col_info.*2 !! 0%nat) ≫= (.!! i) = Some (VStr c) ∧
         (col_info.*2 !! 2%nat) ≫= (.!! i) = Some (VInt non_null) ∧
         (col_info.*2 !! 3%nat) ≫= (.!! i) = Some (VInt null) ∧
         0 ≤ non_null ∧ 0 ≤ null ∧ non_null + null = len d) ∧
    pd_DataFrame (col_info_data dtype_name index_memory column_memory d) = Raise ValueError.
Proof.
  set (n := length (columns d)).
  assert (length (df_count d) = n) as Hcount by (unfold df_count; by rewrite length_fmap).
  assert (length (isnull_sum d) = n) as Hnull by (unfold isnull_sum; by rewrite length_fmap).
  pose proof (memory_list_length d) as Hmem. fold n in Hmem.
  eexists. split; [apply column_information_run|]. split_and!.
  - done.
  - intros item Hin. fold n.
    repeat (apply elem_of_cons in Hin as [->|Hin]; cbn [snd];
            [rewrite ?length_take, ?Hmem, ?length_fmap, ?Hcount, ?Hnull; lia|]).
    by apply elem_of_nil in Hin.
  - intros i c Hi. cbn. unfold df_count, isnull_sum. rewrite !list_lookup_fmap, Hi.
    eexists _, _. cbn. split; [done|]. split; [done|]. split; [done|].
    pose proof (counts_partition c (rows d)). unfold len. lia.
  - unfold pd_DataFrame, col_info_data. cbn [forallb snd].
    rewrite Hmem, !length_fmap, Hcount, Hnull. fold n.
    rewrite Nat.eqb_refl. cbn [andb].
    by rewrite (proj2 (Nat.eqb_neq (S n) n)) by lia.
Qed.

(** X16.  The memory column of the table is one row off: [memory_usage]
    lists the index before the columns, and the loop cuts the list at the
    number of columns, so the first row shows the memory of the index, the row
    of every later column shows the memory of the column before it, and the
    memory of the last column is cut off. *)
Theorem column_information_memory_is_shifted d :
  ∃ col_info memory,
    column_information dtype_name index_memory column_memory d = Ok (st_dataframe col_info) ∧
    col_info !! 4%nat = Some ("Memory Usage (KB)", memory) ∧
    length memory = length (columns d) ∧
    (columns d ≠ [] → memory !! 0%nat = Some (VFloat (index_memory d # 1024))) ∧
    (∀ i c, columns d !! i = Some c → (S i < length (columns d))%nat →
       memory !! S i = Some (VFloat (column_memory d c # 1024))).
Proof.
  eexists _, _. split; [apply column_information_run|]. split; [done|].
  pose proof (memory_list_length d) as Hmem.
  split_and!.
  - rewrite length_take, Hmem. lia.
  - intros Hne. rewrite lookup_take_lt by (destruct (columns d); [done|cbn; lia]).
    done.
  - intros i c Hi Hlt. rewrite lookup_take_lt by lia.
    unfold memory_usage. rewrite fmap_cons, lookup_cons, !list_lookup_fmap, Hi. done.
Qed.

End ColumnInformationFacts.

(** X15, at the three-line frame and its [publish_time] column. *)
Lemma column_information_table_witness :
  columns (all_rows three_rows) !! 1%nat = Some "publish_time" ∧
  ∃ col_info non_null null,
    column_information example_dtype example_index_memory example_column_memory
      (all_rows three_rows) = Ok (st_dataframe col_info) ∧
    (col_info.*2 !! 2%nat) ≫= (.!! 1%nat) = Some (VInt non_null) ∧
    (col_info.*2 !! 3%nat) ≫= (.!! 1%nat) = Some (VInt null) ∧
    non_null + null = 3.
Proof.
  split; [reflexivity|].
  destruct (column_information_table example_dtype example_index_memory example_column_memory
              (all_rows three_rows)) as (col_info & Hrun & _ & _ & Hcounts & _).
  destruct (Hcounts 1%nat "publish_time" eq_refl)
    as (non_null & null & _ & Hnon_null & Hnull & _ & _ & Hsum).
  exists col_info, non_null, null.
  split; [exact Hrun|]. split; [exact Hnon_null|]. split; [exact Hnull|exact Hsum].
Defined.

(** X16, at the three-line frame. *)
Lemma column_information_memory_is_shifted_witness :
  columns (all_rows three_rows) !! 0%nat = Some "title" ∧
  ∃ col_info memory,
    column_information example_dtype example_index_memory example_column_memory
      (all_rows three_rows) = Ok (st_dataframe col_info) ∧
    col_info !! 4%nat = Some ("Memory Usage (KB)", memory) ∧
    memory !! 1%nat
      = Some (VFloat (example_column_memory (all_rows three_rows) "title" # 1024)).
Proof.
  split; [reflexivity|].
  destruct (column_information_memory_is_shifted example_dtype example_index_memory
              example_column_memory (all_rows three_rows))
    as (col_info & memory & Hrun & Hmemory & _ & _ & Hshift).
  exists col_info, memory. split; [exact Hrun|]. split; [exact Hmemory|].
  apply (Hshift 0%nat "title" eq_refl). vm_compute. lia.
Defined.
